(** * Webex Teams room archiver: a shallow embedding of
      [webexteamsarchiver/webexteamsarchiver.py] and its properties.

    The archiver talks to three external collaborators (the Webex SDK and
    HTTP transport, the template engine, the tar codec).  They are gathered
    in a record [world] of oracles; every call to one of them is logged in a
    trace, and its answer may depend on the calls made so far.  The local
    file system is a finite map from paths to nodes; its operations fail
    only for structural reasons (a path exists, is missing, is not a
    directory).  Python exceptions are values of [exn], and code that may
    raise lives in the state-and-exception monad [M]. *)

From Stdlib Require Import ZArith Ascii String List Lia Bool.
From stdpp Require Import gmap strings list fin_maps.

Local Open Scope string_scope.

(* ===================================================================== *)
(** ** Exceptions *)
(* ===================================================================== *)

(** The exception classes the archiver can meet.  [KeyboardInterrupt] and
    [SystemExit] derive from [BaseException] only; all others derive from
    [Exception]. *)
Inductive exn : Type :=
| ApiError (status_code : Z)
| MalformedResponse (message : string)
| HTTPError (status_code : Z)
| RequestException (info : string)
| FileExistsError (path : string)
| FileNotFoundError (path : string)
| NotADirectoryError (path : string)
| IsADirectoryError (path : string)
| TemplateError (info : string)
| TypeError (info : string)
| TarError (info : string)
| ValueError (info : string)
| KeyboardInterrupt
| SystemExit (code : Z).

(** [isinstance(e, Exception)]. *)
Definition is_Exception (e : exn) : bool :=
  match e with
  | KeyboardInterrupt | SystemExit _ => false
  | _ => true
  end.

(* ===================================================================== *)
(** ** Dates: [datetime] and [timedelta] *)
(* ===================================================================== *)

(** A [datetime] is a number of microseconds since the epoch. *)
Definition datetime : Type := Z.

(** Python normalises a [timedelta] to [days], [seconds] in [0, 86400) and
    [microseconds] in [0, 10^6); only [days] carries the sign. *)
Record timedelta : Type := mk_timedelta {
  days : Z;
  seconds : Z;
  microseconds : Z
}.

Definition us_per_second : Z := 1000000.
Definition seconds_per_day : Z := 86400.

Definition timedelta_of_us (us : Z) : timedelta :=
  {| days := (us / (seconds_per_day * us_per_second))%Z;
     seconds := ((us mod (seconds_per_day * us_per_second)) / us_per_second)%Z;
     microseconds := (us mod us_per_second)%Z |}.

(** [a - b] on two datetimes. *)
Definition datetime_sub (a b : datetime) : timedelta :=
  timedelta_of_us (a - b)%Z.

(** A datetime given in whole seconds. *)
Definition at_second (s : Z) : datetime := (s * us_per_second)%Z.

(* ===================================================================== *)
(** ** Records of the SDK and of the archiver *)
(* ===================================================================== *)

(** A message of the room.  [files] is the list of attachment URLs; the SDK
    gives [None] for a message without files, which the code treats like
    the empty list ([if msg.files:]). *)
Record Message : Type := mk_Message {
  msg_id : string;
  personEmail : string;
  personId : string;
  created : datetime;
  text : string;
  files : list string
}.

(** A person: either the SDK's record or the archiver's [UserNotFound]
    namedtuple.  Both have the fields id, emails, displayName, avatar. *)
Inductive Person : Type :=
| SdkPerson (id : string) (emails : list string) (displayName : string)
            (avatar : option string)
| UserNotFound (id : string) (emails : list string) (displayName : string)
               (avatar : option string).

Definition avatar_of (p : Person) : option string :=
  match p with
  | SdkPerson _ _ _ a => a
  | UserNotFound _ _ _ a => a
  end.

Definition displayName_of (p : Person) : string :=
  match p with
  | SdkPerson _ _ d _ => d
  | UserNotFound _ _ d _ => d
  end.

(** A header value or length as Python holds it: [0] or a string. *)
Inductive pyval : Type :=
| PyInt (n : Z)
| PyStr (s : string).

(** [File = namedtuple("File", "content_disposition content_length
    content_type filename deleted")]. *)
Record File : Type := mk_File {
  content_disposition : string;
  content_length : pyval;
  content_type : string;
  filename : string;
  deleted : bool
}.

Record Room : Type := mk_Room {
  room_id : string;
  title : string;
  creatorId : string
}.

(* ===================================================================== *)
(** ** Strings: case folding and the filename pattern *)
(* ===================================================================== *)

Definition dquote : ascii := "034"%char.
Definition newline : ascii := "010"%char.

(** Header values are Latin-1 text; among those characters only the ASCII
    capitals fold onto the letters of the pattern. *)
Definition lower (c : ascii) : ascii :=
  let n := nat_of_ascii c in
  if (65 <=? n)%nat && (n <=? 90)%nat then ascii_of_nat (n + 32) else c.

Definition ci_eqb (a b : ascii) : bool := Ascii.eqb (lower a) (lower b).

(** [strip_prefix_ci pat s]: when [s] starts with [pat], compared without
    regard to case, the rest of [s]. *)
Fixpoint strip_prefix_ci (pat s : string) : option string :=
  match pat with
  | EmptyString => Some s
  | String p pat' =>
      match s with
      | EmptyString => None
      | String c s' => if ci_eqb p c then strip_prefix_ci pat' s' else None
      end
  end.

(** The rest of the lazy group [(.+?)] followed by the closing quote: the
    characters up to the first quote, none of which may be a newline. *)
Fixpoint scan_quote (s : string) : option string :=
  match s with
  | EmptyString => None
  | String c s' =>
      if Ascii.eqb c dquote then Some EmptyString
      else if Ascii.eqb c newline then None
      else option_map (String c) (scan_quote s')
  end.

Definition filename_keyword : string := "filename=" +:+ String dquote EmptyString.

(** A match of the pattern that starts at the head of [s]; the result is
    group 1.  The first character of the group is any character but a
    newline (a quote included), since [.+?] takes at least one. *)
Definition match_filename_at (s : string) : option string :=
  match strip_prefix_ci filename_keyword s with
  | Some (String c rest) =>
      if Ascii.eqb c newline then None
      else option_map (String c) (scan_quote rest)
  | _ => None
  end.

(** [re.search(r'filename="(.+?)"', s, re.I)]: the leftmost match. *)
Fixpoint re_search_filename (s : string) : option string :=
  match match_filename_at s with
  | Some g => Some g
  | None =>
      match s with
      | EmptyString => None
      | String _ s' => re_search_filename s'
      end
  end.


(* ===================================================================== *)
(** ** The local file system *)
(* ===================================================================== *)

(** Paths are relative to the current working directory; the code's
    [os.path.join(os.getcwd(), d, f)] and its relative [d/f] name the same
    entry. *)
Inductive node : Type :=
| Dir
| RegFile (content : string).

(** [os.path.join d f]; the working directory is the empty path. *)
Definition path_join (d f : string) : string :=
  if String.prefix "/" f then f
  else if String.eqb d "" then f
  else if String.eqb (String.substring (String.length d - 1) 1 d) "/" then d +:+ f
  else d +:+ "/" +:+ f.

Definition isdir (fs : gmap string node) (p : string) : bool :=
  match fs !! p with
  | Some Dir => true
  | _ => false
  end.

(** [under p q]: [q] is [p] itself or lies below the directory [p]. *)
Definition under (p q : string) : bool :=
  String.eqb q p || String.prefix (p +:+ "/") q.

(** What remains of the file system once the tree at [p] is removed. *)
Definition remove_tree (p : string) (fs : gmap string node) : gmap string node :=
  filter (λ kv : string * node, under p kv.1 = false) fs.

Fixpoint has_slash (p : string) : bool :=
  match p with
  | EmptyString => false
  | String c p' => Ascii.eqb c "/"%char || has_slash p'
  end.

(** [os.path.dirname] on a relative path; the empty string is the working
    directory. *)
Fixpoint dirname (p : string) : string :=
  match p with
  | EmptyString => EmptyString
  | String c p' => if has_slash p' then String c (dirname p') else EmptyString
  end.

(** The proper ancestors of a path, outermost first. *)
Fixpoint ancestors_from (acc p : string) : list string :=
  match p with
  | EmptyString => []
  | String c p' =>
      if Ascii.eqb c "/"%char
      then (if String.eqb acc "" then [] else [acc])
             ++ ancestors_from (acc +:+ "/") p'
      else ancestors_from (acc +:+ String c EmptyString) p'
  end.

Definition ancestors (p : string) : list string := ancestors_from "" p.

(** Every entry sits in directories. *)
Definition fs_wf (fs : gmap string node) : Prop :=
  ∀ p, is_Some (fs !! p) → ∀ a, a ∈ ancestors p → fs !! a = Some Dir.

(* ===================================================================== *)
(** ** The collaborators *)
(* ===================================================================== *)

(** The answer to [requests.head]: status and headers.  [headers] is keyed
    by the lower-cased header name, as [CaseInsensitiveDict] stores it. *)
Record Response : Type := mk_Response {
  status_code : Z;
  headers : gmap string string
}.

(** The answer to [requests.get(url, stream=True)]: the status, the bytes
    the raw stream yields, and the error that ends the stream early, if
    any. *)
Record GetResponse : Type := mk_GetResponse {
  get_status_code : Z;
  raw : string;
  raw_error : option exn
}.

(** Calls to the collaborators, newest first in a trace.  [EvPeopleGet]
    carries the cache key (the sender email) the lookup is made for. *)
Inductive event : Type :=
| EvRoomsGet (room : string)
| EvCreatorGet (person : string)
| EvPeopleMe
| EvMessagesList (room : string) (mentioned_me : bool)
| EvPeopleGet (email : string) (person : string)
| EvHead (url : string)
| EvGet (url : string)
| EvTarAdd (folder : string).

Record world : Type := mk_world {
  sdk_rooms_get : list event → string → exn + Room;
  sdk_people_get : list event → string → exn + Person;
  sdk_people_me_type : list event → exn + string;
  (** iterating the container of [sdk.messages.list]: the messages it
      yields, and the error that ends the iteration early, if any *)
  sdk_messages_list : list event → string → bool → list Message * option exn;
  requests_head : list event → string → exn + Response;
  requests_get : list event → string → exn + GetResponse;
  (** [jinja_env.sanitize_name] *)
  sanitize_name : string → string;
  (** [template.render] of [default.html] and [default.txt] *)
  render_html : Room → Person → list Message → gmap string File →
                gmap string Person → bool → list nat → string → exn + string;
  render_text : Room → Person → list Message → gmap string File →
                string → exn + string;
  (** [json.dump] of the messages and of the space details *)
  json_messages : list Message → exn + string;
  json_space : Room → Person → exn + string;
  (** the bundled presentation assets of [static/<dir>], by relative path *)
  static_assets : string → list (string * node);
  (** [tar.add]: the bytes that reach the archive file, and the error that
      interrupts the walk, if any *)
  tar_add : list event → gmap string node → string → string * option exn;
  (** the order in which the futures of a pool complete *)
  completion_order : list event → list string → list string
}.

(** A pool runs every submitted task exactly once. *)
Definition fair_pool (W : world) : Prop :=
  ∀ tr urls, completion_order W tr urls ≡ₚ urls.

(* ===================================================================== *)
(** ** The monad of the archiver *)
(* ===================================================================== *)

Record state : Type := mk_state {
  fs : gmap string node;
  trace : list event
}.

Inductive outcome (A : Type) : Type :=
| Ok (a : A)
| Raise (e : exn).
Arguments Ok {A} a.
Arguments Raise {A} e.

Definition M (A : Type) : Type := state → outcome A * state.

Definition ret {A} (a : A) : M A := λ s, (Ok a, s).
Definition raise {A} (e : exn) : M A := λ s, (Raise e, s).
Definition bind {A B} (m : M A) (k : A → M B) : M B :=
  λ s, match m s with
       | (Ok a, s') => k a s'
       | (Raise e, s') => (Raise e, s')
       end.

Declare Scope py_scope.
Delimit Scope py_scope with py.
Notation "x <- m ;; k" := (bind m (λ x, k))
  (at level 100, m at next level, right associativity) : py_scope.
Notation "m ;;; k" := (bind m (λ _, k))
  (at level 100, right associativity) : py_scope.
Local Open Scope py_scope.

Definition get_fs : M (gmap string node) := λ s, (Ok (fs s), s).
Definition put_fs (f : gmap string node) : M unit :=
  λ s, (Ok tt, {| fs := f; trace := trace s |}).
Definition get_trace : M (list event) := λ s, (Ok (trace s), s).
Definition emit (ev : event) : M unit :=
  λ s, (Ok tt, {| fs := fs s; trace := ev :: trace s |}).

(** An oracle's answer: either the exception the call raises or its value. *)
Definition lift {A} (r : exn + A) : M A :=
  match r with
  | inl e => raise e
  | inr a => ret a
  end.

Definition when (b : bool) (m : M unit) : M unit := if b then m else ret tt.

(** [try: body / except Exception: handler; raise]. *)
Definition try_except_Exception_reraise {A} (body : M A) (handler : M unit) : M A :=
  λ s, match body s with
       | (Ok a, s') => (Ok a, s')
       | (Raise e, s') =>
           if is_Exception e
           then match handler s' with
                | (Ok _, s'') => (Raise e, s'')
                | (Raise e', s'') => (Raise e', s'')
                end
           else (Raise e, s')
       end.

(* ===================================================================== *)
(** ** File-system calls *)
(* ===================================================================== *)

(** [shutil.rmtree(p, ignore_errors=False)]. *)
Definition shutil_rmtree (p : string) : M unit :=
  f <- get_fs ;;
  match f !! p with
  | None => raise (FileNotFoundError p)
  | Some (RegFile _) => raise (NotADirectoryError p)
  | Some Dir => put_fs (remove_tree p f)
  end.

(** One missing ancestor is created; an ancestor that is a regular file
    makes the final [mkdir] fail. *)
Fixpoint make_ancestors (p : string) (anc : list string) : M unit :=
  match anc with
  | [] => ret tt
  | a :: rest =>
      f <- get_fs ;;
      match f !! a with
      | None => put_fs (<[a := Dir]> f) ;;; make_ancestors p rest
      | Some Dir => make_ancestors p rest
      | Some (RegFile _) => raise (NotADirectoryError p)
      end
  end.

(** [os.makedirs(p)], with [exist_ok=False]. *)
Definition os_makedirs (p : string) : M unit :=
  make_ancestors p (ancestors p) ;;;
  f <- get_fs ;;
  match f !! p with
  | Some _ => raise (FileExistsError p)
  | None => put_fs (<[p := Dir]> f)
  end.

(** [p] ends with a slash. *)
Fixpoint ends_with_slash (p : string) : bool :=
  match p with
  | EmptyString => false
  | String c p' =>
      match p' with
      | EmptyString => Ascii.eqb c "/"%char
      | _ => ends_with_slash p'
      end
  end.

(** [p] without its trailing slashes. *)
Fixpoint strip_slashes (p : string) : string :=
  match p with
  | EmptyString => EmptyString
  | String c p' =>
      match strip_slashes p' with
      | EmptyString => if Ascii.eqb c "/"%char then EmptyString
                       else String c EmptyString
      | rest => String c rest
      end
  end.

(** What [open] raises for a name whose parent [d] is no directory. *)
Definition no_parent (f : gmap string node) (d p : string) : exn :=
  match f !! d with
  | Some (RegFile _) => NotADirectoryError p
  | _ => FileNotFoundError p
  end.

(** [open(p, "w")]: the file is created empty, or truncated.  The empty
    path is not found.  A path that ends with a slash names a directory and
    is never opened for writing: the call fails with [IsADirectoryError] when
    the directory exists or its parent does, and with [NotADirectoryError]
    when the name belongs to a regular file.  A parent that is missing gives
    [FileNotFoundError], a parent that is a regular file
    [NotADirectoryError]. *)
Definition open_w (p : string) : M unit :=
  f <- get_fs ;;
  if String.eqb p "" then raise (FileNotFoundError p)
  else if ends_with_slash p
  then
    match f !! strip_slashes p with
    | Some Dir => raise (IsADirectoryError p)
    | Some (RegFile _) => raise (NotADirectoryError p)
    | None =>
        if String.eqb (dirname (strip_slashes p)) ""
           || isdir f (dirname (strip_slashes p))
        then raise (IsADirectoryError p)
        else raise (no_parent f (dirname (strip_slashes p)) p)
    end
  else
    match f !! p with
    | Some Dir => raise (IsADirectoryError p)
    | _ =>
        if String.eqb (dirname p) "" || isdir f (dirname p)
        then put_fs (<[p := RegFile ""]> f)
        else raise (no_parent f (dirname p) p)
    end.

(** Writing to an open file replaces what the model holds for it. *)
Definition write (p content : string) : M unit :=
  f <- get_fs ;; put_fs (<[p := RegFile content]> f).

Fixpoint put_entries (dst : string) (entries : list (string * node))
    (f : gmap string node) : gmap string node :=
  match entries with
  | [] => f
  | (rel, n) :: rest => put_entries dst rest (<[path_join dst rel := n]> f)
  end.

(** [shutil.copytree(src, dst)] from the bundled assets. *)
Definition shutil_copytree (entries : list (string * node)) (dst : string) : M unit :=
  os_makedirs dst ;;;
  f <- get_fs ;; put_fs (put_entries dst entries f).

(* ===================================================================== *)
(** ** The archiver *)
(* ===================================================================== *)

(** [sdk.messages.list(room_id)] and [sdk.messages.list(room_id,
    mentionedPeople="me")] build a lazy container: it holds the request, and
    the pages are fetched when the container is iterated. *)
Record MessageList : Type := mk_MessageList {
  list_room_id : string;
  list_mentioned_me : bool
}.

(** What [_gather_room_information] stores on [self]. *)
Record Self : Type := mk_Self {
  room : Room;
  archive_folder_name : string;
  room_creator : Person;
  messages : MessageList
}.

(** The keyword options of [archive_room]. *)
Record Options : Type := mk_Options {
  overwrite_folder : bool;
  delete_folder : bool;
  reverse_order : bool;
  download_attachments : bool;
  download_avatars : bool;
  download_workers : Z;
  timestamp_format : string
}.

Definition default_options : Options :=
  {| overwrite_folder := true;
     delete_folder := false;
     reverse_order := true;
     download_attachments := true;
     download_avatars := true;
     download_workers := 15;
     timestamp_format := "%Y-%m-%dT%H:%M:%S" |}.

(** The variables of the loop of [_archive]. *)
Record loop_state : Type := mk_loop_state {
  people : gmap string Person;
  attachments : gmap string File;
  avatars : gmap string File;
  processed_messages : list Message;
  repeat_indeces : list nat;
  previous_person_email : string;
  previous_msg_datetime : option datetime
}.

Definition initial_loop_state : loop_state :=
  {| people := ∅; attachments := ∅; avatars := ∅;
     processed_messages := []; repeat_indeces := [];
     previous_person_email := ""; previous_msg_datetime := None |}.

(** The test of line 192.  [previous_msg_datetime] is [None] only at index
    0, where [index > 0] already decides. *)
Definition is_repeat (index : nat) (msg : Message) (prev_email : string)
    (prev_dt : option datetime) : bool :=
  (0 <? index)%nat
  && String.eqb (personEmail msg) prev_email
  && match prev_dt with
     | Some prev => (seconds (datetime_sub prev (created msg)) <? 60)%Z
     | None => false
     end.

(** Truth value of an optional string. *)
Definition truthy (o : option string) : bool :=
  match o with
  | Some s => negb (String.eqb s "")
  | None => false
  end.

Section Archiver.

Variable W : world.

Definition head (url : string) : M Response :=
  tr <- get_trace ;; emit (EvHead url) ;;; lift (requests_head W tr url).

(** [r.raise_for_status()] *)
Definition raise_for_status (c : Z) : M unit :=
  if (400 <=? c)%Z && (c <? 600)%Z then raise (HTTPError c) else ret tt.

Definition malformed_message (cd url : string) : string :=
  "Failed to find filename='' in " +:+ cd +:+ " for url " +:+ url.

Definition file_details (url : string) : M File :=
  r <- head url ;;
  if (status_code r =? 404)%Z
  then ret (mk_File "" (PyInt 0) "" "" true)
  else
    raise_for_status (status_code r) ;;;
    let cd := default "" (headers r !! "content-disposition") in
    match re_search_filename cd with
    | None => raise (MalformedResponse (malformed_message cd url))
    | Some name =>
        ret (mk_File cd
                     (from_option PyStr (PyInt 0) (headers r !! "content-length"))
                     (default "" (headers r !! "content-type"))
                     name
                     false)
    end.

(** Lines 199-215: the sender is looked up unless the cache knows the
    email. *)
Definition resolve_person (download_avatars : bool) (msg : Message)
    (ls : loop_state) : M loop_state :=
  match people ls !! personEmail msg with
  | Some _ => ret ls
  | None =>
      tr <- get_trace ;;
      emit (EvPeopleGet (personEmail msg) (personId msg)) ;;;
      p <- match sdk_people_get W tr (personId msg) with
           | inr p => ret p
           | inl (ApiError c) =>
               if (c =? 404)%Z
               then ret (UserNotFound (personId msg) [personEmail msg]
                                      "Person Not Found" None)
               else raise (ApiError c)
           | inl e => raise e
           end ;;
      let people' := <[personEmail msg := p]> (people ls) in
      let avatars' :=
        if download_avatars && truthy (avatar_of p)
        then <[default "" (avatar_of p) :=
                 mk_File "" (PyStr "") "" (sanitize_name W (personEmail msg)) false]>
               (avatars ls)
        else avatars ls in
      ret {| people := people'; attachments := attachments ls;
             avatars := avatars';
             processed_messages := processed_messages ls;
             repeat_indeces := repeat_indeces ls;
             previous_person_email := previous_person_email ls;
             previous_msg_datetime := previous_msg_datetime ls |}
  end.

(** Lines 217-220. *)
Fixpoint probe_files (urls : list string) (att : gmap string File)
    : M (gmap string File) :=
  match urls with
  | [] => ret att
  | url :: rest =>
      file_metadata <- file_details url ;;
      probe_files rest (<[url := file_metadata]> att)
  end.

(** Lines 190-197: the message is recorded and flagged. *)
Definition note_message (index : nat) (msg : Message) (ls : loop_state)
    : loop_state :=
  {| people := people ls; attachments := attachments ls; avatars := avatars ls;
     processed_messages := processed_messages ls ++ [msg];
     repeat_indeces :=
       if is_repeat index msg (previous_person_email ls) (previous_msg_datetime ls)
       then repeat_indeces ls ++ [index]
       else repeat_indeces ls;
     previous_person_email := personEmail msg;
     previous_msg_datetime := Some (created msg) |}.

Definition loop_body (download_avatars : bool) (index : nat) (msg : Message)
    (ls : loop_state) : M loop_state :=
  ls1 <- resolve_person download_avatars msg (note_message index msg ls) ;;
  att <- probe_files (files msg) (attachments ls1) ;;
  ret {| people := people ls1; attachments := att; avatars := avatars ls1;
         processed_messages := processed_messages ls1;
         repeat_indeces := repeat_indeces ls1;
         previous_person_email := previous_person_email ls1;
         previous_msg_datetime := previous_msg_datetime ls1 |}.

(** [for index, msg in enumerate(self.messages)] *)
Fixpoint archive_loop (download_avatars : bool) (index : nat)
    (msgs : list Message) (ls : loop_state) : M loop_state :=
  match msgs with
  | [] => ret ls
  | msg :: rest =>
      ls' <- loop_body download_avatars index msg ls ;;
      archive_loop download_avatars (S index) rest ls'
  end.

(** Lines 222-224. *)
Definition reorder (reverse_order : bool) (ls : loop_state)
    : list nat * list Message :=
  if reverse_order
  then (map (λ i, length (processed_messages ls) - i) (repeat_indeces ls),
        rev (processed_messages ls))
  else (repeat_indeces ls, processed_messages ls).

Definition _create_html_transcript (self : Self) (msgs : list Message)
    (att : gmap string File) (ppl : gmap string Person) (download_avatars : bool)
    (repeat : list nat) (timestamp_format : string) : M unit :=
  html <- lift (render_html W (room self) (room_creator self) msgs att ppl
                            download_avatars repeat timestamp_format) ;;
  let p := path_join (archive_folder_name self)
                     (archive_folder_name self +:+ ".html") in
  open_w p ;;; write p html.

Definition _create_text_transcript (self : Self) (msgs : list Message)
    (att : gmap string File) (timestamp_format : string) : M unit :=
  text_transcript <- lift (render_text W (room self) (room_creator self) msgs att
                                       timestamp_format) ;;
  let p := path_join (archive_folder_name self)
                     (archive_folder_name self +:+ ".txt") in
  open_w p ;;; write p text_transcript.

Definition _create_json_transcript (self : Self) (msgs : list Message) : M unit :=
  let p := path_join (archive_folder_name self)
                     (archive_folder_name self +:+ ".json") in
  open_w p ;;;
  data <- lift (json_messages W msgs) ;;
  write p data.

Definition _download_file (self : Self) (folder_name url filename : string)
    : M unit :=
  tr <- get_trace ;;
  emit (EvGet url) ;;;
  r <- lift (requests_get W tr url) ;;
  let p := path_join (path_join (archive_folder_name self) folder_name) filename in
  open_w p ;;;
  write p (raw r) ;;;
  match raw_error r with
  | Some e => raise e
  | None => ret tt
  end.

(** The futures in their order of completion: every task runs, and the
    first failure met by [future.result()] is the one raised once the pool
    has shut down. *)
Fixpoint run_pool (self : Self) (folder_name : string) (links : gmap string File)
    (order : list string) (failure : option exn) : M unit :=
  match order with
  | [] =>
      match failure with
      | Some e => raise e
      | None => ret tt
      end
  | url :: rest =>
      match links !! url with
      | None => run_pool self folder_name links rest failure
      | Some f =>
          λ s, match _download_file self folder_name url (filename f) s with
               | (Ok _, s') => run_pool self folder_name links rest failure s'
               | (Raise e, s') =>
                   run_pool self folder_name links rest
                            (Some (default e failure)) s'
               end
      end
  end.

Definition _download_files (self : Self) (folder_name : string)
    (links : gmap string File) (workers : Z) : M unit :=
  if (workers <=? 0)%Z
  then raise (ValueError "max_workers must be greater than 0")
  else
    tr <- get_trace ;;
    run_pool self folder_name links
             (completion_order W tr (map fst (map_to_list links))) None.

(** [enumerate(self.messages)]: the listing request is made when the loop
    of [_archive] starts to iterate.  The loop runs over the messages the
    container yields; an error of the listing ends the [for] statement
    after them. *)
Definition iterate (l : MessageList) : M (list Message * option exn) :=
  tr <- get_trace ;;
  emit (EvMessagesList (list_room_id l) (list_mentioned_me l)) ;;;
  ret (sdk_messages_list W tr (list_room_id l) (list_mentioned_me l)).

Definition write_space_details (self : Self) : M unit :=
  let p := path_join (archive_folder_name self) "space_details.json" in
  open_w p ;;;
  space_details <- lift (json_space W (room self) (room_creator self)) ;;
  write p space_details.

Definition _archive (self : Self) (reverse_order download_attachments
    download_avatars : bool) (download_workers : Z)
    (text_format html_format json_format : bool) (timestamp_format : string)
    : M unit :=
  yielded <- iterate (messages self) ;;
  ls <- archive_loop download_avatars 0 yielded.1 initial_loop_state ;;
  match yielded.2 with
  | Some e => raise e
  | None => ret tt
  end ;;;
  let '(repeat, processed) := reorder reverse_order ls in
  when html_format
    (_create_html_transcript self processed (attachments ls) (people ls)
                             download_avatars repeat timestamp_format) ;;;
  when text_format
    (_create_text_transcript self processed (attachments ls) timestamp_format) ;;;
  when download_attachments
    (_download_files self "attachments" (attachments ls) download_workers) ;;;
  when download_avatars
    (_download_files self "avatars" (avatars ls) download_workers) ;;;
  when json_format (_create_json_transcript self processed) ;;;
  write_space_details self.

Definition _setup_folder (self : Self) (overwrite_folder download_attachments
    download_avatars html_format : bool) : M unit :=
  f <- get_fs ;;
  when (isdir f (archive_folder_name self) && overwrite_folder)
    (shutil_rmtree (archive_folder_name self)) ;;;
  os_makedirs (archive_folder_name self) ;;;
  when download_attachments
    (os_makedirs (archive_folder_name self +:+ "/attachments")) ;;;
  when download_avatars
    (os_makedirs (archive_folder_name self +:+ "/avatars")) ;;;
  when html_format
    (shutil_copytree (static_assets W ".css") (archive_folder_name self +:+ "/.css") ;;;
     shutil_copytree (static_assets W ".js") (archive_folder_name self +:+ "/.js") ;;;
     shutil_copytree (static_assets W ".fonts") (archive_folder_name self +:+ "/.fonts")).

Definition _tear_down_folder (self : Self) : M unit :=
  f <- get_fs ;;
  when (isdir f (archive_folder_name self))
    (shutil_rmtree (archive_folder_name self)).

Definition _gather_room_information (room_id : string) : M Self :=
  tr <- get_trace ;;
  emit (EvRoomsGet room_id) ;;;
  rm <- lift (sdk_rooms_get W tr room_id) ;;
  let name := sanitize_name W (title rm) +:+ "_" +:+ room_id in
  tr <- get_trace ;;
  emit (EvCreatorGet (creatorId rm)) ;;;
  creator <- match sdk_people_get W tr (creatorId rm) with
             | inr p => ret p
             | inl (ApiError c) =>
                 if (c =? 404)%Z
                 then ret (UserNotFound (creatorId rm) ["unknown"]
                                        "Person Not Found" None)
                 else raise (ApiError c)
             | inl e => raise e
             end ;;
  tr <- get_trace ;;
  emit EvPeopleMe ;;;
  me_type <- lift (sdk_people_me_type W tr) ;;
  ret {| room := rm; archive_folder_name := name; room_creator := creator;
         messages := mk_MessageList room_id (String.eqb me_type "bot") |}.

(** [tarfile.open(name.tgz, "w:gz")] creates the archive file; [tar.add]
    then walks the folder.  Leaving the [with] block on an exception closes
    the file and keeps what was written. *)
Definition _compress_folder (self : Self) : M unit :=
  let tgz := archive_folder_name self +:+ ".tgz" in
  open_w tgz ;;;
  f <- get_fs ;;
  match f !! archive_folder_name self with
  | None => raise (FileNotFoundError (archive_folder_name self))
  | Some _ =>
      tr <- get_trace ;;
      emit (EvTarAdd (archive_folder_name self)) ;;;
      let '(bytes, err) := tar_add W tr f (archive_folder_name self) in
      write tgz bytes ;;;
      match err with
      | Some e => raise e
      | None => ret tt
      end
  end.

(** The part of [archive_room] that follows [_gather_room_information]. *)
Definition archive_gathered (self : Self) (text_format html_format
    json_format : bool) (o : Options) : M string :=
  _setup_folder self (overwrite_folder o) (download_attachments o)
                (download_avatars o) html_format ;;;
  try_except_Exception_reraise
    (_archive self (reverse_order o) (download_attachments o) (download_avatars o)
              (download_workers o) text_format html_format json_format
              (timestamp_format o) ;;;
     _compress_folder self)
    (_tear_down_folder self) ;;;
  when (delete_folder o) (_tear_down_folder self) ;;;
  ret (archive_folder_name self +:+ ".tgz").

Definition archive_room (room_id : string) (text_format html_format
    json_format : bool) (o : Options) : M string :=
  self <- _gather_room_information room_id ;;
  archive_gathered self text_format html_format json_format o.

End Archiver.

(* ===================================================================== *)
(** ** Observations on a run, and sample data *)
(* ===================================================================== *)

(** The flags the loop appends, read off the message list alone. *)
Fixpoint flags_from (index : nat) (msgs : list Message) (prev_email : string)
    (prev_dt : option datetime) : list nat :=
  match msgs with
  | [] => []
  | msg :: rest =>
      (if is_repeat index msg prev_email prev_dt then [index] else [])
        ++ flags_from (S index) rest (personEmail msg) (Some (created msg))
  end.

(** The identity lookups a trace holds for one sender email. *)
Definition is_lookup_for (email : string) (ev : event) : bool :=
  match ev with
  | EvPeopleGet e _ => String.eqb e email
  | _ => false
  end.

Definition lookups_for (email : string) (tr : list event) : nat :=
  length (filter (λ ev, is_lookup_for email ev = true) tr).

(** The metadata probes a trace holds for one URL. *)
Definition is_probe_of (url : string) (ev : event) : bool :=
  match ev with
  | EvHead u => String.eqb u url
  | _ => false
  end.

Definition probes_of (url : string) (tr : list event) : nat :=
  length (filter (λ ev, is_probe_of url ev = true) tr).

(** What [file_details] answers for [url] when the calls made so far are
    [tr]. *)
Definition probe_answer (W : world) (tr : list event) (url : string)
    : outcome File :=
  (file_details W url {| fs := ∅; trace := tr |}).1.

(** [f] is the record returned by the last probe of [url] in the trace [tr]
    (newest call first), and that probe was made after the calls of [tr0]. *)
Definition last_probe (W : world) (tr0 tr : list event) (url : string)
    (f : File) : Prop :=
  ∃ pre post,
    tr = (post ++ EvHead url :: pre)%list
    ∧ probes_of url post = 0%nat
    ∧ tr0 `suffix_of` pre
    ∧ probe_answer W pre url = Ok f.

Definition occurrences (url : string) (urls : list string) : nat :=
  length (filter (λ u, u = url) urls).

(** The number of times [url] is listed in the messages. *)
Definition listed (url : string) (msgs : list Message) : nat :=
  occurrences url (concat (map files msgs)).

(** The absolute gap between two datetimes, in microseconds. *)
Definition gap_us (a b : datetime) : Z := Z.abs (a - b).

Definition quoted (s : string) : string :=
  String dquote (s +:+ String dquote EmptyString).

Definition empty_state : state := {| fs := ∅; trace := [] |}.

Definition message_at (email : string) (t : Z) (urls : list string) : Message :=
  {| msg_id := "m"; personEmail := email; personId := "p-" +:+ email;
     created := at_second t; text := "hello"; files := urls |}.

(** Two messages of one sender, a day and ten seconds apart, newest first. *)
Definition day_apart : list Message :=
  [message_at "a@x.com" 86410 []; message_at "a@x.com" 0 []].

(** Two messages of one sender, ten seconds apart, oldest first. *)
Definition ten_seconds_later : list Message :=
  [message_at "a@x.com" 0 []; message_at "a@x.com" 10 []].

(** Three messages, the first two of one sender and ten seconds apart,
    newest first. *)
Definition three_messages : list Message :=
  [message_at "a@x.com" 30 []; message_at "a@x.com" 20 [];
   message_at "b@x.com" 10 []].

(** Two messages that list the same attachment. *)
Definition shared_attachment : list Message :=
  [message_at "a@x.com" 30 ["https://files/1"];
   message_at "b@x.com" 20 ["https://files/1"]].

(** A world in which every collaborator answers and nothing fails. *)
Definition quiet_world : world :=
  {| sdk_rooms_get := λ _ rid, inr (mk_Room rid "Team Sync" "creator-id");
     sdk_people_get := λ _ pid, inr (SdkPerson pid [] "Someone" None);
     sdk_people_me_type := λ _, inr "person";
     sdk_messages_list := λ _ _ _, (three_messages, None);
     requests_head := λ _ _,
       inr (mk_Response 200
              {[ "content-disposition" := "attachment; filename=" +:+ quoted "a.txt" ]});
     requests_get := λ _ _, inr (mk_GetResponse 200 "data" None);
     sanitize_name := λ s, s;
     render_html := λ _ _ _ _ _ _ _ _, inr "<html></html>";
     render_text := λ _ _ _ _ _, inr "transcript";
     json_messages := λ _, inr "{}";
     json_space := λ _ _, inr "{}";
     static_assets := λ _, [];
     tar_add := λ _ _ _, ("archive", None);
     completion_order := λ _ urls, urls |}.

(** A header value holds a parsable filename [name] when it reads
    [filename="name"] somewhere, the keyword in any case, [name] not empty
    and free of newlines. *)
Fixpoint lower_string (s : string) : string :=
  match s with
  | EmptyString => EmptyString
  | String c s' => String (lower c) (lower_string s')
  end.

Definition ci_equal (a b : string) : Prop := lower_string a = lower_string b.

Definition parsable_filename (h name : string) : Prop :=
  ∃ pre kw post,
    h = pre +:+ kw +:+ name +:+ String dquote post
    ∧ ci_equal filename_keyword kw
    ∧ name ≠ ""
    ∧ newline ∉ list_ascii_of_string name.

(** The record of a file that is gone. *)
Definition deleted_file : File := mk_File "" (PyInt 0) "" "" true.

(** Worlds that differ from a given one in a single collaborator. *)
Definition with_requests_head (h : list event → string → exn + Response)
    (W : world) : world :=
  {| sdk_rooms_get := sdk_rooms_get W; sdk_people_get := sdk_people_get W;
     sdk_people_me_type := sdk_people_me_type W;
     sdk_messages_list := sdk_messages_list W;
     requests_head := h; requests_get := requests_get W;
     sanitize_name := sanitize_name W; render_html := render_html W;
     render_text := render_text W; json_messages := json_messages W;
     json_space := json_space W; static_assets := static_assets W;
     tar_add := tar_add W; completion_order := completion_order W |}.

Definition with_requests_get (g : list event → string → exn + GetResponse)
    (W : world) : world :=
  {| sdk_rooms_get := sdk_rooms_get W; sdk_people_get := sdk_people_get W;
     sdk_people_me_type := sdk_people_me_type W;
     sdk_messages_list := sdk_messages_list W;
     requests_head := requests_head W; requests_get := g;
     sanitize_name := sanitize_name W; render_html := render_html W;
     render_text := render_text W; json_messages := json_messages W;
     json_space := json_space W; static_assets := static_assets W;
     tar_add := tar_add W; completion_order := completion_order W |}.

Definition with_tar_add
    (t : list event → gmap string node → string → string * option exn)
    (W : world) : world :=
  {| sdk_rooms_get := sdk_rooms_get W; sdk_people_get := sdk_people_get W;
     sdk_people_me_type := sdk_people_me_type W;
     sdk_messages_list := sdk_messages_list W;
     requests_head := requests_head W; requests_get := requests_get W;
     sanitize_name := sanitize_name W; render_html := render_html W;
     render_text := render_text W; json_messages := json_messages W;
     json_space := json_space W; static_assets := static_assets W;
     tar_add := t; completion_order := completion_order W |}.

Definition with_sdk_messages_list
    (l : list event → string → bool → list Message * option exn)
    (W : world) : world :=
  {| sdk_rooms_get := sdk_rooms_get W; sdk_people_get := sdk_people_get W;
     sdk_people_me_type := sdk_people_me_type W;
     sdk_messages_list := l;
     requests_head := requests_head W; requests_get := requests_get W;
     sanitize_name := sanitize_name W; render_html := render_html W;
     render_text := render_text W; json_messages := json_messages W;
     json_space := json_space W; static_assets := static_assets W;
     tar_add := tar_add W; completion_order := completion_order W |}.

(** The file behind every URL is gone. *)
Definition gone_world : world :=
  with_requests_head (λ _ _, inr (mk_Response 404 ∅)) quiet_world.

(** A room with one message, whose attachment has been deleted since. *)
Definition deleted_attachment_world : world :=
  with_sdk_messages_list
    (λ _ _ _, ([message_at "a@x.com" 30 ["https://files/1"]], None))
    gone_world.

(** The listing yields one message and then fails. *)
Definition failing_listing_world : world :=
  with_sdk_messages_list
    (λ _ _ _, ([message_at "a@x.com" 30 []], Some (ApiError 502)))
    quiet_world.

(** The second probe of a URL finds the file under another name. *)
Definition renamed_world : world :=
  with_requests_head
    (λ tr url,
       inr (mk_Response 200
              {[ "content-disposition" :=
                   "attachment; filename="
                   +:+ quoted (if (probes_of url tr =? 0)%nat
                               then "a.txt" else "b.txt") ]}))
    quiet_world.

(** The default options, without the download of attachments. *)
Definition without_attachments : Options :=
  {| overwrite_folder := true;
     delete_folder := false;
     reverse_order := true;
     download_attachments := false;
     download_avatars := true;
     download_workers := 15;
     timestamp_format := "%Y-%m-%dT%H:%M:%S" |}.

(** Every metadata request succeeds without naming a file. *)
Definition nameless_world : world :=
  with_requests_head
    (λ _ _, inr (mk_Response 200 {[ "content-disposition" := "attachment" ]}))
    quiet_world.

(** The room of the end-to-end example and a working directory that
    already holds its archive folder. *)
Definition sample_self : Self :=
  {| room := mk_Room "abc123" "Team Sync" "creator-id";
     archive_folder_name := "Team_Sync_abc123";
     room_creator := SdkPerson "creator-id" [] "Someone" None;
     messages := mk_MessageList "abc123" false |}.



(** The user interrupts the run while the folder is being compressed. *)
Definition interrupted_world : world :=
  with_tar_add (λ _ _ _, ("partial", Some KeyboardInterrupt)) quiet_world.

(** The tar codec fails in the middle of the walk. *)
Definition broken_tar_world : world :=
  with_tar_add (λ _ _ _, ("partial", Some (TarError "unreadable entry")))
               quiet_world.

(** The body of the [try] statement of [archive_room]. *)
Definition guarded_body (W : world) (self : Self) (text_format html_format
    json_format : bool) (o : Options) : M unit :=
  _archive W self (reverse_order o) (download_attachments o) (download_avatars o)
           (download_workers o) text_format html_format json_format
           (timestamp_format o) ;;;
  _compress_folder W self.

(** The file system once [_tear_down_folder] has run. *)
Definition torn_down (name : string) (f : gmap string node) : gmap string node :=
  if isdir f name then remove_tree name f else f.

(** Every body request is answered with status 500 and an error page. *)
Definition error_page_world : world :=
  with_requests_get
    (λ _ _, inr (mk_GetResponse 500 "Internal Server Error" None)) quiet_world.

(** Every body request fails in the transport. *)
Definition offline_world : world :=
  with_requests_get (λ _ _, inl (RequestException "connection refused"))
                    quiet_world.

(** A working directory in which the folder of the example is set up. *)
Definition prepared_state : state :=
  {| fs := <["Team_Sync_abc123/attachments" := Dir]>
             (<["Team_Sync_abc123" := Dir]> ∅);
     trace := [] |}.

Definition one_link : gmap string File :=
  {[ "https://files/1" :=
       mk_File ("attachment; filename=" +:+ quoted "a.txt") (PyStr "4")
               "text/plain" "a.txt" false ]}.

(** A working directory in which the folder's name belongs to a file. *)
Definition regular_file_state : state :=
  {| fs := <["Team_Sync_abc123" := RegFile "notes"]> ∅; trace := [] |}.

(** The file system after [_setup_folder] on a free place, without the
    presentation assets. *)
Definition fresh_folder (name : string) (da dv : bool) (f : gmap string node)
    : gmap string node :=
  let f1 := <[name := Dir]> f in
  let f2 := if da then <[name +:+ "/attachments" := Dir]> f1 else f1 in
  if dv then <[name +:+ "/avatars" := Dir]> f2 else f2.

(** The placeholder for a room creator the directory does not know. *)
Definition unknown_creator (creator : string) : Person :=
  UserNotFound creator ["unknown"] "Person Not Found" None.

(** The trace after the three calls of [_gather_room_information]. *)
Definition gather_trace (room_id creator : string) (tr : list event)
    : list event :=
  EvPeopleMe :: EvCreatorGet creator :: EvRoomsGet room_id :: tr.

Definition with_sdk_people_get (g : list event → string → exn + Person)
    (W : world) : world :=
  {| sdk_rooms_get := sdk_rooms_get W; sdk_people_get := g;
     sdk_people_me_type := sdk_people_me_type W;
     sdk_messages_list := sdk_messages_list W;
     requests_head := requests_head W; requests_get := requests_get W;
     sanitize_name := sanitize_name W; render_html := render_html W;
     render_text := render_text W; json_messages := json_messages W;
     json_space := json_space W; static_assets := static_assets W;
     tar_add := tar_add W; completion_order := completion_order W |}.

(** Nobody is known to the directory. *)
Definition strangers_world : world :=
  with_sdk_people_get (λ _ _, inl (ApiError 404)) quiet_world.

(** The directory is out of order. *)
Definition no_directory_world : world :=
  with_sdk_people_get (λ _ _, inl (ApiError 500)) quiet_world.

(** The record under which an avatar is scheduled for download. *)
Definition avatar_file (W : world) (email : string) : File :=
  mk_File "" (PyStr "") "" (sanitize_name W email) false.

(** Every scheduled avatar belongs to a cached person. *)
Definition avatars_ok (W : world) (da : bool) (ls : loop_state) : Prop :=
  ∀ u f, avatars ls !! u = Some f →
    da = true ∧ u ≠ ""
    ∧ ∃ email p, people ls !! email = Some p ∧ avatar_of p = Some u
                 ∧ f = avatar_file W email.

(** [e] is the directory's not-found answer. *)
Definition not_found (e : exn) : bool :=
  match e with
  | ApiError c => (c =? 404)%Z
  | _ => false
  end.

(** The body requests a trace holds for one URL. *)
Definition is_get_of (url : string) (ev : event) : bool :=
  match ev with
  | EvGet u => String.eqb u url
  | _ => false
  end.

Definition gets_of (url : string) (tr : list event) : nat :=
  length (filter (λ ev, is_get_of url ev = true) tr).

(** A sender with an avatar. *)
Definition portrait_world : world :=
  {| sdk_rooms_get := sdk_rooms_get quiet_world;
     sdk_people_get := λ _ pid, inr (SdkPerson pid [] "Someone"
                                               (Some ("https://avatars/" +:+ pid)));
     sdk_people_me_type := sdk_people_me_type quiet_world;
     sdk_messages_list := sdk_messages_list quiet_world;
     requests_head := requests_head quiet_world;
     requests_get := requests_get quiet_world;
     sanitize_name := sanitize_name quiet_world;
     render_html := render_html quiet_world;
     render_text := render_text quiet_world;
     json_messages := json_messages quiet_world;
     json_space := json_space quiet_world;
     static_assets := static_assets quiet_world;
     tar_add := tar_add quiet_world;
     completion_order := completion_order quiet_world |}.

Definition two_links : gmap string File :=
  <["https://files/2" := mk_File "" (PyStr "4") "text/plain" "b.txt" false]>
    one_link.


(** The listing requests a trace holds. *)
Definition is_listing (ev : event) : bool :=
  match ev with
  | EvMessagesList _ _ => true
  | _ => false
  end.

(** The caller is a bot. *)
Definition bot_world : world :=
  {| sdk_rooms_get := sdk_rooms_get quiet_world;
     sdk_people_get := sdk_people_get quiet_world;
     sdk_people_me_type := λ _, inr "bot";
     sdk_messages_list := sdk_messages_list quiet_world;
     requests_head := requests_head quiet_world;
     requests_get := requests_get quiet_world;
     sanitize_name := sanitize_name quiet_world;
     render_html := render_html quiet_world;
     render_text := render_text quiet_world;
     json_messages := json_messages quiet_world;
     json_space := json_space quiet_world;
     static_assets := static_assets quiet_world;
     tar_add := tar_add quiet_world;
     completion_order := completion_order quiet_world |}.

(* ===================================================================== *)
(** * Properties *)
(* ===================================================================== *)

Local Open Scope list_scope.

(** ** Reasoning in the monad *)

Lemma bind_inv {A B} (m : M A) (k : A → M B) s r s' :
  bind m k s = (r, s') →
  (∃ a s1, m s = (Ok a, s1) ∧ k a s1 = (r, s'))
  ∨ (∃ e, m s = (Raise e, s') ∧ r = Raise e).
Proof.
  unfold bind. destruct (m s) as [[a|e] s1]; intros H.
  - left. eauto.
  - right. inversion H; subst. eauto.
Qed.

Lemma bind_Ok {A B} (m : M A) (k : A → M B) s a s1 :
  m s = (Ok a, s1) → bind m k s = k a s1.
Proof. unfold bind. by intros ->. Qed.

Lemma bind_Raise {A B} (m : M A) (k : A → M B) s e s1 :
  m s = (Raise e, s1) → bind m k s = (Raise e, s1).
Proof. unfold bind. by intros ->. Qed.

Ltac unfold_monad :=
  unfold bind, ret, raise, get_fs, put_fs, get_trace, emit, lift, when in *;
  simpl in *.

(** Case analysis along the branches of a computation. *)
Ltac monad_cases :=
  unfold_monad;
  repeat (first [ progress simplify_eq/= | case_match ]; unfold_monad).

(** ** The loop leaves the flags to [note_message] *)

Lemma resolve_person_frame W da msg ls s ls1 s1 :
  resolve_person W da msg ls s = (Ok ls1, s1) →
  attachments ls1 = attachments ls
  ∧ processed_messages ls1 = processed_messages ls
  ∧ repeat_indeces ls1 = repeat_indeces ls
  ∧ previous_person_email ls1 = previous_person_email ls
  ∧ previous_msg_datetime ls1 = previous_msg_datetime ls
  ∧ fs s1 = fs s.
Proof.
  unfold resolve_person. intros H. monad_cases; done.
Qed.

Lemma file_details_fs W url s r s1 :
  file_details W url s = (r, s1) → fs s1 = fs s.
Proof.
  unfold file_details, head, raise_for_status. intros H. monad_cases; done.
Qed.

Lemma loop_body_frame W da index msg ls s ls1 s1 :
  loop_body W da index msg ls s = (Ok ls1, s1) →
  processed_messages ls1 = processed_messages ls ++ [msg]
  ∧ repeat_indeces ls1 =
      repeat_indeces ls
        ++ (if is_repeat index msg (previous_person_email ls)
                         (previous_msg_datetime ls)
            then [index] else [])
  ∧ previous_person_email ls1 = personEmail msg
  ∧ previous_msg_datetime ls1 = Some (created msg).
Proof.
  unfold loop_body. intros H.
  apply bind_inv in H as [(l1 & t1 & H1 & H)|(e & _ & ?)]; [|done].
  apply bind_inv in H as [(att & t2 & _ & H)|(e & _ & ?)]; [|done].
  apply resolve_person_frame in H1 as (_ & Hp & Hr & He & Hd & _).
  unfold ret in H. simplify_eq. simpl.
  rewrite Hp, Hr, He, Hd. simpl.
  repeat split; try done. case_match; [done | by rewrite app_nil_r].
Qed.

Lemma archive_loop_flags W da msgs : ∀ index ls s ls' s',
  archive_loop W da index msgs ls s = (Ok ls', s') →
  processed_messages ls' = processed_messages ls ++ msgs
  ∧ repeat_indeces ls' =
      repeat_indeces ls
        ++ flags_from index msgs (previous_person_email ls)
                      (previous_msg_datetime ls).
Proof.
  induction msgs as [|msg rest IH]; intros index ls s ls' s' H; simpl in *.
  - unfold ret in H. simplify_eq. by rewrite !app_nil_r.
  - apply bind_inv in H as [(l1 & t1 & H1 & H)|(e & _ & ?)]; [|done].
    apply loop_body_frame in H1 as (Hp & Hr & He & Hd).
    apply IH in H as [-> ->].
    rewrite Hp, Hr, He, Hd, <- !app_assoc. done.
Qed.

(** The indices [flags_from] yields, position by position. *)
Lemma flags_from_spec msgs : ∀ index prev_email prev_dt i,
  i ∈ flags_from index msgs prev_email prev_dt ↔
  (index ≤ i)%nat ∧
  ∃ cur, msgs !! (i - index)%nat = Some cur ∧
    is_repeat i cur
      (if decide (i = index) then prev_email
       else from_option personEmail "" (msgs !! (i - index - 1)%nat))
      (if decide (i = index) then prev_dt
       else created <$> msgs !! (i - index - 1)%nat) = true.
Proof.
  induction msgs as [|msg rest IH]; intros index pe pd i.
  - simpl. split; [by intros ?%elem_of_nil | by intros (_ & cur & ? & _)].
  - assert (Hhd : ∀ i, (index < i)%nat →
              (msg :: rest) !! (i - index)%nat = rest !! (i - S index)%nat).
    { intros j Hj. by replace (j - index)%nat with (S (j - S index)) by lia. }
    assert (Hpv : ∀ i, (S index < i)%nat →
              (msg :: rest) !! (i - index - 1)%nat = rest !! (i - S index - 1)%nat).
    { intros j Hj.
      by replace (j - index - 1)%nat with (S (j - S index - 1)) by lia. }
    assert (Hp0 : (msg :: rest) !! (S index - index - 1)%nat = Some msg).
    { by replace (S index - index - 1)%nat with 0%nat by lia. }
    cbn [flags_from]. rewrite elem_of_app, IH. split.
    + intros [Hi|(Hle & cur & Hcur & Hrep)].
      * case_match eqn:Hr; [|by apply elem_of_nil in Hi].
        apply list_elem_of_singleton in Hi as ->.
        split; [lia|]. exists msg. rewrite Nat.sub_diag.
        split; [done|]. by rewrite !decide_True by done.
      * split; [lia|]. exists cur. rewrite Hhd by lia.
        split; [done|]. rewrite !decide_False by lia.
        destruct (decide (i = S index)) as [->|Hne].
        -- by rewrite Hp0.
        -- by rewrite Hpv by lia.
    + intros (Hle & cur & Hcur & Hrep).
      destruct (decide (i = index)) as [->|Hne].
      * left. rewrite Nat.sub_diag in Hcur. simpl in Hcur. simplify_eq.
        rewrite Hrep. by apply list_elem_of_singleton.
      * right. split; [lia|]. exists cur. rewrite Hhd in Hcur by lia.
        split; [done|].
        destruct (decide (i = S index)) as [->|Hne'].
        -- by rewrite Hp0 in Hrep.
        -- by rewrite Hpv in Hrep by lia.
Qed.

(** ** Continuation flags *)

Lemma archive_loop_initial W da msgs s ls s' :
  archive_loop W da 0 msgs initial_loop_state s = (Ok ls, s') →
  processed_messages ls = msgs
  ∧ repeat_indeces ls = flags_from 0 msgs "" None.
Proof. intros H. by apply archive_loop_flags in H as [-> ->]. Qed.

(** What the loop flags: position [i > 0] is flagged exactly when the sender
    is the previous one and the [seconds] field of the difference, previous
    minus current, is below 60. *)
Lemma repeat_indeces_spec W da msgs s ls s' i :
  archive_loop W da 0 msgs initial_loop_state s = (Ok ls, s') →
  i ∈ repeat_indeces ls ↔
  (0 < i)%nat ∧
  ∃ prev cur, msgs !! (i - 1)%nat = Some prev ∧ msgs !! i = Some cur
    ∧ personEmail cur = personEmail prev
    ∧ (seconds (datetime_sub (created prev) (created cur)) < 60)%Z.
Proof.
  intros H. apply archive_loop_initial in H as [_ ->].
  rewrite flags_from_spec. rewrite !Nat.sub_0_r. unfold is_repeat. split.
  - intros (_ & cur & Hcur & Hrep).
    apply andb_prop in Hrep as [Hrep Hsec]. apply andb_prop in Hrep as [Hpos Heq].
    apply Nat.ltb_lt in Hpos. destruct (decide (i = 0%nat)); [lia|].
    split; [done|]. destruct (msgs !! (i - 1)%nat) as [prev|]; [|done].
    exists prev, cur. simpl in *. apply String.eqb_eq in Heq.
    apply Z.ltb_lt in Hsec. done.
  - intros (Hpos & prev & cur & Hprev & Hcur & Heq & Hsec).
    split; [lia|]. exists cur. split; [done|].
    destruct (decide (i = 0%nat)); [lia|]. rewrite Hprev. simpl.
    rewrite Heq, String.eqb_refl. apply Nat.ltb_lt in Hpos. rewrite Hpos. simpl.
    by apply Z.ltb_lt.
Qed.

(** The [seconds] field agrees with the gap when the previous message is
    the later one by less than a day. *)
Lemma seconds_within_a_day (prev cur : datetime) :
  (0 ≤ prev - cur < seconds_per_day * us_per_second)%Z →
  (seconds (datetime_sub prev cur) < 60)%Z ↔
  (gap_us prev cur < 60 * us_per_second)%Z.
Proof.
  unfold datetime_sub, timedelta_of_us, gap_us, seconds_per_day, us_per_second.
  simpl. intros Hd. rewrite Z.mod_small by lia. rewrite Z.abs_eq by lia.
  pose proof (Z.div_mod (prev - cur) 1000000 ltac:(lia)) as Hdm.
  pose proof (Z.mod_pos_bound (prev - cur) 1000000 ltac:(lia)) as Hmb.
  lia.
Qed.

(** C1.  The flag test reads [.seconds] of the difference, which drops whole
    days and the sign.  Two messages of one sender a day and ten seconds
    apart are flagged although their gap is far above 60 seconds, and two
    messages ten seconds apart, delivered oldest first, are not flagged. *)
Theorem C1_seconds_field_drops_days :
  ∀ W da s,
    (∀ ls s', archive_loop W da 0 day_apart initial_loop_state s = (Ok ls, s') →
       repeat_indeces ls = [1%nat]
       ∧ (60 * us_per_second ≤ gap_us (at_second 86410) (at_second 0))%Z)
    ∧ (∀ ls s', archive_loop W da 0 ten_seconds_later initial_loop_state s
                  = (Ok ls, s') →
         repeat_indeces ls = []
         ∧ (gap_us (at_second 0) (at_second 10) < 60 * us_per_second)%Z).
Proof.
  intros W da s. split; intros ls s' H;
    apply archive_loop_initial in H as [_ ->]; by vm_compute.
Qed.

Lemma C1_seconds_field_drops_days_witness :
  (∃ ls s', archive_loop quiet_world true 0 day_apart initial_loop_state
              empty_state = (Ok ls, s') ∧ repeat_indeces ls = [1%nat])
  ∧ (∃ ls s', archive_loop quiet_world true 0 ten_seconds_later
                initial_loop_state empty_state = (Ok ls, s')
              ∧ repeat_indeces ls = []).
Proof.
  destruct (C1_seconds_field_drops_days quiet_world true empty_state) as [H1 H2].
  split.
  - destruct (archive_loop quiet_world true 0 day_apart initial_loop_state
                empty_state) as [[ls|e] s'] eqn:E; [|by vm_compute in E].
    exists ls, s'. split; [done|]. by apply (H1 ls s').
  - destruct (archive_loop quiet_world true 0 ten_seconds_later
                initial_loop_state empty_state) as [[ls|e] s'] eqn:E;
      [|by vm_compute in E].
    exists ls, s'. split; [done|]. by apply (H2 ls s').
Defined.

(** ** Reversal *)




(** ** The calls a run makes *)

Lemma lookups_for_cons e ev tr :
  lookups_for e (ev :: tr) =
  ((if is_lookup_for e ev then 1 else 0) + lookups_for e tr)%nat.
Proof.
  unfold lookups_for. rewrite filter_cons.
  destruct (is_lookup_for e ev); by case_decide.
Qed.

Lemma probes_of_cons u ev tr :
  probes_of u (ev :: tr) =
  ((if is_probe_of u ev then 1 else 0) + probes_of u tr)%nat.
Proof.
  unfold probes_of. rewrite filter_cons.
  destruct (is_probe_of u ev); by case_decide.
Qed.

Lemma occurrences_cons u x urls :
  occurrences u (x :: urls) =
  ((if String.eqb x u then 1 else 0) + occurrences u urls)%nat.
Proof.
  unfold occurrences. rewrite filter_cons.
  destruct (String.eqb_spec x u); by case_decide.
Qed.

Lemma occurrences_app u l1 l2 :
  occurrences u (l1 ++ l2) = (occurrences u l1 + occurrences u l2)%nat.
Proof. unfold occurrences. by rewrite filter_app, length_app. Qed.

Lemma occurrences_pos u urls : (0 < occurrences u urls)%nat ↔ u ∈ urls.
Proof.
  induction urls as [|x urls IH].
  { rewrite elem_of_nil. unfold occurrences. simpl. split; [lia | done]. }
  rewrite occurrences_cons, elem_of_cons.
  destruct (String.eqb_spec x u) as [->|Hne]; [split; [by left | lia]|].
  simpl. rewrite IH. split; [by right | by intros [-> | ?]].
Qed.

(** A probe logs one [EvHead] whatever its outcome. *)
Lemma file_details_trace W url s r s1 :
  file_details W url s = (r, s1) → trace s1 = EvHead url :: trace s.
Proof.
  unfold file_details, head, raise_for_status. intros H. monad_cases; done.
Qed.

Lemma probe_files_calls W e u urls : ∀ att s r s1,
  probe_files W urls att s = (r, s1) →
  lookups_for e (trace s1) = lookups_for e (trace s)
  ∧ (probes_of u (trace s1) ≤ probes_of u (trace s) + occurrences u urls)%nat
  ∧ ∀ att', r = Ok att' →
      probes_of u (trace s1) = (probes_of u (trace s) + occurrences u urls)%nat
      ∧ ∀ k, is_Some (att' !! k) ↔ is_Some (att !! k) ∨ k ∈ urls.
Proof.
  induction urls as [|url rest IH]; intros att s r s1 H; simpl in H.
  - unfold ret in H. simplify_eq. unfold occurrences. simpl.
    split_and!; [done | lia |]. intros att' [= <-]. split; [lia|].
    intros k. rewrite elem_of_nil. tauto.
  - rewrite occurrences_cons.
    apply bind_inv in H as [(f & t1 & H1 & H)|(x & H1 & ->)].
    + apply file_details_trace in H1.
      apply IH in H as (Hl & Hp & Hok). rewrite H1 in Hl, Hp, Hok.
      rewrite lookups_for_cons in Hl. rewrite probes_of_cons in Hp, Hok.
      simpl in *. split_and!; [done | lia |].
      intros att' Hr. destruct (Hok att' Hr) as [Heq Hdom]. split; [lia|].
      intros k. rewrite Hdom, elem_of_cons, lookup_insert_is_Some.
      destruct (decide (url = k)); intuition congruence.
    + apply file_details_trace in H1. rewrite H1.
      rewrite lookups_for_cons, probes_of_cons. simpl.
      split_and!; [done | lia | done].
Qed.

Lemma resolve_person_calls W da msg ls s r s1 e u :
  resolve_person W da msg ls s = (r, s1) →
  lookups_for e (trace s1) =
    (lookups_for e (trace s)
     + match people ls !! personEmail msg with
       | Some _ => 0
       | None => if String.eqb (personEmail msg) e then 1 else 0
       end)%nat
  ∧ probes_of u (trace s1) = probes_of u (trace s)
  ∧ ∀ ls1, r = Ok ls1 →
      attachments ls1 = attachments ls
      ∧ ∀ k, is_Some (people ls1 !! k) ↔
             is_Some (people ls !! k) ∨ k = personEmail msg.
Proof.
  unfold resolve_person. intros H.
  destruct (people ls !! personEmail msg) as [p|] eqn:Hp.
  - unfold ret in H. simplify_eq. split_and!; [lia | done |].
    intros ls1 [= <-]. split; [done|]. intros k. split; [by left|].
    intros [? | ->]; [done | by rewrite Hp].
  - destruct (String.eqb (personEmail msg) e) eqn:He;
      monad_cases; rewrite ?lookups_for_cons, ?probes_of_cons; simpl;
      rewrite ?He; (split_and!; [lia | done |]); intros ls1 Hr;
      simplify_eq; simpl;
      (split; [done|]); intros k; rewrite lookup_insert_is_Some;
      destruct (decide (personEmail msg = k)); intuition congruence.
Qed.

Lemma loop_body_calls W da index msg ls s r s1 e u :
  loop_body W da index msg ls s = (r, s1) →
  lookups_for e (trace s1) =
    (lookups_for e (trace s)
     + match people ls !! personEmail msg with
       | Some _ => 0
       | None => if String.eqb (personEmail msg) e then 1 else 0
       end)%nat
  ∧ (probes_of u (trace s1) ≤ probes_of u (trace s) + occurrences u (files msg))%nat
  ∧ ∀ ls1, r = Ok ls1 →
      probes_of u (trace s1) =
        (probes_of u (trace s) + occurrences u (files msg))%nat
      ∧ (∀ k, is_Some (people ls1 !! k) ↔
              is_Some (people ls !! k) ∨ k = personEmail msg)
      ∧ (∀ k, is_Some (attachments ls1 !! k) ↔
              is_Some (attachments ls !! k) ∨ k ∈ files msg).
Proof.
  unfold loop_body. intros H.
  apply bind_inv in H as [(l1 & t1 & H1 & H)|(x & H1 & ->)].
  - apply (resolve_person_calls _ _ _ _ _ _ _ e u) in H1 as (Hl1 & Hp1 & Hok1).
    destruct (Hok1 l1 eq_refl) as [Hatt Hppl]. simpl in *.
    apply bind_inv in H as [(att & t2 & H2 & H)|(x & H2 & ->)].
    + apply (probe_files_calls _ e u) in H2 as (Hl2 & Hp2 & Hok2).
      destruct (Hok2 att eq_refl) as [Hpe Hdom].
      unfold ret in H. simplify_eq. split_and!; [lia | lia |].
      intros ls1 [= <-]. simpl. split_and!; [lia | done |].
      intros k. by rewrite Hdom, Hatt.
    + apply (probe_files_calls _ e u) in H2 as (Hl2 & Hp2 & _).
      split_and!; [lia | lia | done].
  - apply (resolve_person_calls _ _ _ _ _ _ _ e u) in H1 as (Hl1 & Hp1 & _).
    simpl in *. split_and!; [lia | lia | done].
Qed.

Lemma listed_cons u msg msgs :
  listed u (msg :: msgs) = (occurrences u (files msg) + listed u msgs)%nat.
Proof. unfold listed. simpl. apply occurrences_app. Qed.

Lemma listed_pos u msgs :
  (0 < listed u msgs)%nat ↔ ∃ m, m ∈ msgs ∧ u ∈ files m.
Proof.
  induction msgs as [|msg rest IH].
  - unfold listed, occurrences. simpl. split; [lia|].
    by intros (m & Hm%elem_of_nil & _).
  - rewrite listed_cons. split.
    + intros H. destruct (decide (0 < occurrences u (files msg))%nat) as [Hm|Hm].
      * exists msg. split; [by left | by apply occurrences_pos].
      * destruct IH as [IH _]. destruct IH as (m & Hin & Hu); [lia|].
        exists m. split; [by right | done].
    + intros (m & Hin & Hu). apply elem_of_cons in Hin as [-> | Hin].
      * apply occurrences_pos in Hu. lia.
      * destruct IH as [_ IH]. specialize (IH (ex_intro _ m (conj Hin Hu))). lia.
Qed.

(** The calls of a whole run of the loop, whether it completes or not. *)
Lemma archive_loop_calls W da e u msgs : ∀ index ls s r s',
  archive_loop W da index msgs ls s = (r, s') →
  (lookups_for e (trace s) ≤ lookups_for e (trace s'))%nat
  ∧ (lookups_for e (trace s') ≤
       lookups_for e (trace s)
       + match people ls !! e with Some _ => 0 | None => 1 end)%nat
  ∧ (probes_of u (trace s') ≤ probes_of u (trace s) + listed u msgs)%nat
  ∧ ∀ ls', r = Ok ls' →
      probes_of u (trace s') = (probes_of u (trace s) + listed u msgs)%nat
      ∧ (∀ k, is_Some (people ls' !! k) ↔
              is_Some (people ls !! k) ∨ k ∈ map personEmail msgs)
      ∧ (∀ k, is_Some (attachments ls' !! k) ↔
              is_Some (attachments ls !! k) ∨ (0 < listed k msgs)%nat).
Proof.
  induction msgs as [|msg rest IH]; intros index ls s r s' H; simpl in H.
  - unfold ret in H. simplify_eq. unfold listed, occurrences. simpl.
    split_and!; [lia | case_match; lia | lia |].
    intros ls' [= <-]. split_and!; [lia | |].
    + intros k. rewrite elem_of_nil. tauto.
    + intros k. split; [by left | intros [?|?]; [done | lia]].
  - rewrite listed_cons.
    apply bind_inv in H as [(l1 & t1 & H1 & H)|(x & H1 & ->)].
    + apply (loop_body_calls _ _ _ _ _ _ _ _ e u) in H1 as (Hl1 & Hp1 & Hok1).
      destruct (Hok1 l1 eq_refl) as (Hpe1 & Hppl1 & Hatt1).
      apply IH in H as (Hmono & Hl & Hp & Hok).
      split_and!; [lia | | lia |].
      * destruct (people ls !! personEmail msg) as [p|] eqn:Hpm.
        -- destruct (people ls !! e) as [q|] eqn:Hpe.
           ++ assert (is_Some (people l1 !! e)) as [q' Hq']
                by (apply Hppl1; left; by rewrite Hpe).
              rewrite Hq' in Hl. lia.
           ++ destruct (people l1 !! e); lia.
        -- destruct (String.eqb_spec (personEmail msg) e) as [He|He].
           ++ assert (is_Some (people l1 !! e)) as [q' Hq']
                by (apply Hppl1; by right).
              rewrite Hq' in Hl. subst e. rewrite Hpm. lia.
           ++ destruct (people ls !! e) as [q|] eqn:Hpe.
              ** assert (is_Some (people l1 !! e)) as [q' Hq']
                   by (apply Hppl1; left; by rewrite Hpe).
                 rewrite Hq' in Hl. lia.
              ** destruct (people l1 !! e); lia.
      * intros ls' Hr. destruct (Hok ls' Hr) as (Hpe & Hppl & Hatt).
        split_and!; [lia | |].
        -- intros k. rewrite Hppl, Hppl1. simpl.
           change (map personEmail rest) with (personEmail <$> rest).
           rewrite elem_of_cons. tauto.
        -- intros k. rewrite Hatt, Hatt1, listed_cons.
           rewrite <- (occurrences_pos k (files msg)).
           split; [intros [[?|?]|?] | intros [?|?]]; try tauto; try (right; lia).
           destruct (decide (0 < occurrences k (files msg))%nat); [tauto|].
           right. lia.
    + apply (loop_body_calls _ _ _ _ _ _ _ _ e u) in H1 as (Hl1 & Hp1 & _).
      split_and!; [lia | | lia | done].
      destruct (people ls !! personEmail msg) as [p|] eqn:Hpm; [lia|].
      destruct (String.eqb_spec (personEmail msg) e) as [He|He]; [|lia].
      subst e. rewrite Hpm. lia.
Qed.

(** ** Identity lookups *)

Lemma same_sender_one_lookup W da e msgs s r s' :
  msgs ≠ [] →
  (∀ m, m ∈ msgs → personEmail m = e) →
  archive_loop W da 0 msgs initial_loop_state s = (r, s') →
  lookups_for e (trace s') = (lookups_for e (trace s) + 1)%nat.
Proof.
  destruct msgs as [|msg rest]; [done|]. intros _ Hall H. simpl in H.
  assert (He : personEmail msg = e) by (apply Hall; by left).
  apply bind_inv in H as [(l1 & t1 & H1 & H)|(x & H1 & ->)].
  - apply (loop_body_calls _ _ _ _ _ _ _ _ e "") in H1 as (Hl1 & _ & Hok1).
    destruct (Hok1 l1 eq_refl) as (_ & Hppl1 & _).
    apply (archive_loop_calls _ _ e "") in H as (Hmono & Hl & _).
    assert (is_Some (people l1 !! e)) as [q Hq] by (apply Hppl1; by right).
    rewrite Hq in Hl. simpl in Hl1. rewrite lookup_empty in Hl1.
    rewrite He, String.eqb_refl in Hl1. lia.
  - apply (loop_body_calls _ _ _ _ _ _ _ _ e "") in H1 as (Hl1 & _).
    simpl in Hl1. rewrite lookup_empty in Hl1.
    by rewrite He, String.eqb_refl in Hl1.
Qed.

Lemma not_found_is_cached W da msg ls s :
  people ls !! personEmail msg = None →
  sdk_people_get W (trace s) (personId msg) = inl (ApiError 404) →
  ∃ ls1 s1,
    resolve_person W da msg ls s = (Ok ls1, s1)
    ∧ people ls1 !! personEmail msg =
        Some (UserNotFound (personId msg) [personEmail msg] "Person Not Found" None)
    ∧ ∀ msg' s2, personEmail msg' = personEmail msg →
        resolve_person W da msg' ls1 s2 = (Ok ls1, s2).
Proof.
  intros Hnone H404. unfold resolve_person at 1. rewrite Hnone.
  unfold_monad. rewrite H404. simpl. rewrite andb_false_r.
  eexists _, _. split; [done|]. simpl. split; [by rewrite lookup_insert_eq|].
  intros msg' s2 He. unfold resolve_person. simpl.
  by rewrite He, lookup_insert_eq.
Qed.

(** C5.  In a run of the loop, completed or not, every sender email is
    looked up at most once; the cache, a map keyed by email, holds after a
    completed run one entry for each sender and nothing else; messages that
    all come from one sender cost exactly one lookup; and a not-found answer
    is cached as a placeholder that later messages of that email reuse. *)
Theorem C5_one_lookup_per_sender :
  ∀ W da msgs s r s',
    archive_loop W da 0 msgs initial_loop_state s = (r, s') →
    (∀ e, lookups_for e (trace s') ≤ lookups_for e (trace s) + 1)%nat
    ∧ (∀ ls e, r = Ok ls →
         is_Some (people ls !! e) ↔ e ∈ map personEmail msgs)
    ∧ (∀ e, msgs ≠ [] → (∀ m, m ∈ msgs → personEmail m = e) →
         lookups_for e (trace s') = (lookups_for e (trace s) + 1)%nat)
    ∧ (∀ msg ls0 s0,
         people ls0 !! personEmail msg = None →
         sdk_people_get W (trace s0) (personId msg) = inl (ApiError 404) →
         ∃ ls1 s1,
           resolve_person W da msg ls0 s0 = (Ok ls1, s1)
           ∧ people ls1 !! personEmail msg =
               Some (UserNotFound (personId msg) [personEmail msg]
                                  "Person Not Found" None)
           ∧ ∀ msg' s2, personEmail msg' = personEmail msg →
               resolve_person W da msg' ls1 s2 = (Ok ls1, s2)).
Proof.
  intros W da msgs s r s' H. split_and!.
  - intros e.
    pose proof (archive_loop_calls _ _ e "" _ _ _ _ _ _ H) as (_ & Hl & _).
    simpl in Hl. by rewrite lookup_empty in Hl.
  - intros ls e Hr.
    pose proof (archive_loop_calls _ _ e "" _ _ _ _ _ _ H) as (_ & _ & _ & Hok).
    destruct (Hok ls Hr) as (_ & Hppl & _). rewrite Hppl. simpl.
    rewrite lookup_empty. split; [intros [[? ?]|?]; done | by right].
  - intros e Hne Hall. by eapply same_sender_one_lookup.
  - intros msg ls0 s0. apply not_found_is_cached.
Qed.

Lemma C5_one_lookup_per_sender_witness :
  ∃ r s', archive_loop quiet_world true 0 day_apart initial_loop_state
            empty_state = (r, s')
    ∧ lookups_for "a@x.com" (trace s') = 1%nat.
Proof.
  destruct (archive_loop quiet_world true 0 day_apart initial_loop_state
              empty_state) as [r s'] eqn:E.
  exists r, s'. split; [done|].
  destruct (C5_one_lookup_per_sender _ _ _ _ _ _ E) as (_ & _ & Hone & _).
  rewrite (Hone "a@x.com"); [done | done |].
  intros m Hm. repeat (apply elem_of_cons in Hm as [-> | Hm]; [done|]).
  by apply elem_of_nil in Hm.
Defined.

(** ** Attachment probes *)

(** C2, as stated, fails: a URL listed by two messages is probed twice. *)
Lemma C2_shared_url_probed_twice :
  ¬ (∀ W da msgs s r s' u,
       archive_loop W da 0 msgs initial_loop_state s = (r, s') →
       (probes_of u (trace s') ≤ probes_of u (trace s) + 1)%nat).
Proof.
  intros H.
  destruct (archive_loop quiet_world true 0 shared_attachment initial_loop_state
              empty_state) as [r s'] eqn:E.
  specialize (H _ _ _ _ _ _ "https://files/1" E).
  vm_compute in E. simplify_eq. vm_compute in H. lia.
Qed.

(** A probe answers from the calls made so far, and logs itself. *)
Lemma file_details_answer W url s :
  file_details W url s
  = (probe_answer W (trace s) url,
     {| fs := fs s; trace := EvHead url :: trace s |}).
Proof.
  unfold probe_answer, file_details, head, raise_for_status.
  unfold_monad.
  destruct (requests_head W (trace s) url) as [e|r]; simpl; [done|].
  destruct (status_code r =? 404)%Z; [done|].
  destruct ((400 <=? status_code r)%Z && (status_code r <? 600)%Z); simpl; [done|].
  by destruct (re_search_filename _).
Qed.

(** The record of the last probe of a URL stays the last while other calls
    are made. *)
Lemma last_probe_later W tr0 tr u f ev :
  is_probe_of u ev = false →
  last_probe W tr0 tr u f → last_probe W tr0 (ev :: tr) u f.
Proof.
  intros Hev (pre & post & -> & Hp & Hsuf & Ha).
  exists pre, (ev :: post). split_and!; try done.
  by rewrite probes_of_cons, Hev.
Qed.

Lemma last_probe_now W tr0 tr u f :
  tr0 `suffix_of` tr → probe_answer W tr u = Ok f →
  last_probe W tr0 (EvHead u :: tr) u f.
Proof. intros Hsuf Ha. by exists tr, []. Qed.

Lemma probe_files_last W tr0 urls : ∀ att s att' s1,
  probe_files W urls att s = (Ok att', s1) →
  tr0 `suffix_of` trace s →
  (∀ u f, att !! u = Some f → last_probe W tr0 (trace s) u f) →
  tr0 `suffix_of` trace s1
  ∧ ∀ u f, att' !! u = Some f → last_probe W tr0 (trace s1) u f.
Proof.
  induction urls as [|url rest IH]; intros att s att' s1 H Hsuf Hinv; simpl in H.
  - unfold ret in H. by simplify_eq.
  - apply bind_inv in H as [(f0 & t1 & H1 & H)|(x & _ & ?)]; [|done].
    rewrite file_details_answer in H1. injection H1 as Ha <-.
    apply IH in H; [done | by apply suffix_cons_r |].
    intros u f Hl. simpl. destruct (decide (url = u)) as [->|Hne].
    + rewrite lookup_insert_eq in Hl. injection Hl as <-.
      by apply last_probe_now.
    + rewrite lookup_insert_ne in Hl by done.
      apply last_probe_later; [|by apply Hinv].
      simpl. by apply String.eqb_neq.
Qed.

Lemma resolve_person_trace W da msg ls s ls1 s1 :
  resolve_person W da msg ls s = (Ok ls1, s1) →
  trace s1 = trace s
  ∨ trace s1 = EvPeopleGet (personEmail msg) (personId msg) :: trace s.
Proof.
  unfold resolve_person. intros H. monad_cases; auto.
Qed.

Lemma loop_body_last W tr0 da index msg ls s ls1 s1 :
  loop_body W da index msg ls s = (Ok ls1, s1) →
  tr0 `suffix_of` trace s →
  (∀ u f, attachments ls !! u = Some f → last_probe W tr0 (trace s) u f) →
  tr0 `suffix_of` trace s1
  ∧ ∀ u f, attachments ls1 !! u = Some f → last_probe W tr0 (trace s1) u f.
Proof.
  unfold loop_body. intros H Hsuf Hinv.
  apply bind_inv in H as [(l1 & t1 & H1 & H)|(x & _ & ?)]; [|done].
  apply bind_inv in H as [(att & t2 & H2 & H)|(x & _ & ?)]; [|done].
  unfold ret in H. simplify_eq. simpl.
  pose proof (resolve_person_trace _ _ _ _ _ _ _ H1) as Htr.
  apply resolve_person_frame in H1 as (Hatt & _). simpl in Hatt.
  apply (probe_files_last _ tr0) in H2; [done | |].
  - destruct Htr as [-> | ->]; [done | by apply suffix_cons_r].
  - intros u f Hl. rewrite Hatt in Hl.
    destruct Htr as [-> | ->]; [by apply Hinv|].
    apply last_probe_later; [done | by apply Hinv].
Qed.

Lemma archive_loop_last W tr0 da msgs : ∀ index ls s ls' s',
  archive_loop W da index msgs ls s = (Ok ls', s') →
  tr0 `suffix_of` trace s →
  (∀ u f, attachments ls !! u = Some f → last_probe W tr0 (trace s) u f) →
  ∀ u f, attachments ls' !! u = Some f → last_probe W tr0 (trace s') u f.
Proof.
  induction msgs as [|msg rest IH]; intros index ls s ls' s' H Hsuf Hinv;
    simpl in H.
  - unfold ret in H. by simplify_eq.
  - apply bind_inv in H as [(l1 & t1 & H1 & H)|(x & _ & ?)]; [|done].
    apply (loop_body_last _ tr0) in H1 as [Hsuf1 Hinv1]; [|done..].
    by apply (IH _ _ _ _ _ H).
Qed.

(** C2, amended.  [file_details] is called once for every listing of a URL:
    a run never probes a URL more often than the messages list it, a
    completed run probes it exactly that often, and the attachment map
    then holds a record for each listed URL and for nothing else, namely the
    record that the last probe of that URL in the run returned. *)
Theorem C2_one_probe_per_listing :
  ∀ W da msgs s r s' u,
    archive_loop W da 0 msgs initial_loop_state s = (r, s') →
    (probes_of u (trace s') ≤ probes_of u (trace s) + listed u msgs)%nat
    ∧ ∀ ls, r = Ok ls →
        probes_of u (trace s') = (probes_of u (trace s) + listed u msgs)%nat
        ∧ (is_Some (attachments ls !! u) ↔ (0 < listed u msgs)%nat)
        ∧ ∀ f, attachments ls !! u = Some f →
               last_probe W (trace s) (trace s') u f.
Proof.
  intros W da msgs s r s' u H.
  pose proof H as H'.
  apply (archive_loop_calls _ _ "" u) in H as (_ & _ & Hp & Hok).
  split; [done|]. intros ls Hr. destruct (Hok ls Hr) as (Hpe & _ & Hatt).
  split; [done|]. split.
  - rewrite Hatt. simpl. rewrite lookup_empty.
    split; [intros [[? ?]|?]; done | by right].
  - subst r. intros f Hf.
    apply (archive_loop_last _ (trace s) _ _ _ _ _ _ _ H'); [done | | done].
    intros k g. simpl. by rewrite lookup_empty.
Qed.

Lemma C2_one_probe_per_listing_witness :
  ∃ ls s' f,
    archive_loop renamed_world true 0 shared_attachment initial_loop_state
                 empty_state = (Ok ls, s')
    ∧ probes_of "https://files/1" (trace s') = 2%nat
    ∧ attachments ls !! "https://files/1" = Some f
    ∧ filename f = "b.txt"
    ∧ last_probe renamed_world [] (trace s') "https://files/1" f.
Proof.
  destruct (archive_loop renamed_world true 0 shared_attachment
              initial_loop_state empty_state) as [[ls|e] s'] eqn:E;
    [|by vm_compute in E].
  destruct (C2_one_probe_per_listing _ _ _ _ _ _ "https://files/1" E)
    as [_ Hok].
  destruct (Hok ls eq_refl) as (Hn & Hsome & Hlast).
  destruct Hsome as [_ Hsome]. destruct Hsome as [f Hf]; [vm_compute; lia|].
  exists ls, s', f. split_and!; [done | exact Hn | exact Hf | | by apply Hlast].
  vm_compute in E. injection E as <- _. vm_compute in Hf. by injection Hf as <-.
Defined.

(** ** The filename pattern *)

Lemma ascii_eqb_true a b : Ascii.eqb a b = true ↔ a = b.
Proof. apply Ascii.eqb_eq. Qed.

Lemma strip_prefix_ci_sound pat : ∀ s rest,
  strip_prefix_ci pat s = Some rest →
  ∃ kw, s = kw +:+ rest ∧ ci_equal pat kw.
Proof.
  induction pat as [|p pat IH]; intros s rest H; simpl in H.
  - simplify_eq. by exists "".
  - destruct s as [|c s]; [done|]. destruct (ci_eqb p c) eqn:Hc; [|done].
    apply IH in H as (kw & -> & Hkw). exists (String c kw). split; [done|].
    unfold ci_equal in *. simpl. apply ascii_eqb_true in Hc. by rewrite Hc, Hkw.
Qed.

Lemma strip_prefix_ci_complete pat : ∀ kw rest,
  ci_equal pat kw → strip_prefix_ci pat (kw +:+ rest) = Some rest.
Proof.
  unfold ci_equal.
  induction pat as [|p pat IH]; intros [|c kw] rest H; simpl in *; try done.
  injection H as Hc Hrest. unfold ci_eqb. rewrite Hc, Ascii.eqb_refl.
  by apply IH.
Qed.

Lemma scan_quote_sound s : ∀ g,
  scan_quote s = Some g →
  ∃ post, s = g +:+ String dquote post ∧ newline ∉ list_ascii_of_string g.
Proof.
  induction s as [|c s IH]; intros g H; simpl in H; [done|].
  destruct (Ascii.eqb c dquote) eqn:Hq.
  - simplify_eq. apply ascii_eqb_true in Hq as ->. exists s. split; [done|].
    simpl. apply not_elem_of_nil.
  - destruct (Ascii.eqb c newline) eqn:Hn; [done|].
    destruct (scan_quote s) as [g'|]; [|done]. simpl in H. simplify_eq.
    destruct (IH g' eq_refl) as (post & -> & Hnl). exists post. split; [done|].
    simpl. rewrite not_elem_of_cons. split; [|done].
    intros <-. by rewrite Ascii.eqb_refl in Hn.
Qed.

Lemma scan_quote_complete name post :
  newline ∉ list_ascii_of_string name →
  is_Some (scan_quote (name +:+ String dquote post)).
Proof.
  induction name as [|c name IH]; intros Hnl; simpl.
  - done.
  - simpl in Hnl. apply not_elem_of_cons in Hnl as [Hc Hnl].
    destruct (Ascii.eqb c dquote); [done|].
    destruct (Ascii.eqb c newline) eqn:Hn.
    { apply ascii_eqb_true in Hn. by subst. }
    destruct (IH Hnl) as [g ->]. done.
Qed.

Lemma match_filename_at_sound s g :
  match_filename_at s = Some g → parsable_filename s g.
Proof.
  unfold match_filename_at. intros H.
  destruct (strip_prefix_ci filename_keyword s) as [[|c rest]|] eqn:Hkw; try done.
  destruct (Ascii.eqb c newline) eqn:Hn; [done|].
  destruct (scan_quote rest) as [g'|] eqn:Hs; [|done]. simpl in H. simplify_eq.
  apply strip_prefix_ci_sound in Hkw as (kw & -> & Hci).
  apply scan_quote_sound in Hs as (post & -> & Hnl).
  exists "", kw, post. simpl. split_and!; try done.
  rewrite not_elem_of_cons. split; [|done].
  intros <-. by rewrite Ascii.eqb_refl in Hn.
Qed.

Lemma match_filename_at_complete kw name post :
  ci_equal filename_keyword kw → name ≠ "" →
  newline ∉ list_ascii_of_string name →
  is_Some (match_filename_at (kw +:+ name +:+ String dquote post)).
Proof.
  intros Hci Hne Hnl. unfold match_filename_at.
  rewrite (strip_prefix_ci_complete _ _ _ Hci).
  destruct name as [|c name]; [done|]. simpl in *.
  apply not_elem_of_cons in Hnl as [Hc Hnl].
  destruct (Ascii.eqb c newline) eqn:Hn.
  { apply ascii_eqb_true in Hn. by subst. }
  destruct (scan_quote_complete name post Hnl) as [g ->]. done.
Qed.

Lemma parsable_filename_shift c h name :
  parsable_filename h name → parsable_filename (String c h) name.
Proof.
  intros (pre & kw & post & -> & ?). exists (String c pre), kw, post. done.
Qed.

(** The search finds a filename exactly when the header holds one. *)
Lemma re_search_filename_sound h g :
  re_search_filename h = Some g → parsable_filename h g.
Proof.
  induction h as [|c h IH]; simpl.
  - intros H. vm_compute in H. done.
  - destruct (match_filename_at (String c h)) eqn:Hm.
    + intros [= <-]. by apply match_filename_at_sound.
    + intros H. by apply parsable_filename_shift, IH.
Qed.

Lemma re_search_filename_at s g :
  match_filename_at s = Some g → re_search_filename s = Some g.
Proof.
  intros H. destruct s; [by vm_compute in H|].
  cbn [re_search_filename]. by rewrite H.
Qed.

Lemma re_search_filename_complete h name :
  parsable_filename h name → is_Some (re_search_filename h).
Proof.
  intros (pre & kw & post & -> & Hci & Hne & Hnl).
  induction pre as [|c pre IH].
  - pose proof (match_filename_at_complete kw name post Hci Hne Hnl) as [g Hg].
    exists g. exact (re_search_filename_at _ _ Hg).
  - simpl. destruct (match_filename_at _); [done | exact IH].
Qed.

Lemma re_search_filename_None h :
  re_search_filename h = None ↔ ∀ name, ¬ parsable_filename h name.
Proof.
  split.
  - intros Hnone name Hp. apply re_search_filename_complete in Hp as [g Hg].
    congruence.
  - intros Hno. destruct (re_search_filename h) as [g|] eqn:Hg; [|done].
    apply re_search_filename_sound in Hg. by apply Hno in Hg.
Qed.

(** ** Attachment metadata *)

Lemma string_app_assoc (a b c : string) : (a +:+ b) +:+ c = a +:+ (b +:+ c).
Proof.
  induction a as [|x a IH]; [done|].
  change (String x ((a +:+ b) +:+ c) = String x (a +:+ (b +:+ c))).
  by rewrite IH.
Qed.

(** X21.  A metadata request answered with 404 makes [file_details] return
    the record [File("", 0, "", "", True)] without raising, and the loop over
    the files of the message goes on with the next URL. *)
Lemma file_details_not_found :
  ∀ W url s r,
    requests_head W (trace s) url = inr r →
    status_code r = 404%Z →
    let s1 := {| fs := fs s; trace := EvHead url :: trace s |} in
    file_details W url s = (Ok deleted_file, s1)
    ∧ deleted deleted_file = true
    ∧ content_disposition deleted_file = ""
    ∧ content_length deleted_file = PyInt 0
    ∧ content_type deleted_file = ""
    ∧ filename deleted_file = ""
    ∧ ∀ rest att,
        probe_files W (url :: rest) att s
        = probe_files W rest (<[url := deleted_file]> att) s1.
Proof.
  intros W url s r Hhead H404 s1.
  assert (Hfd : file_details W url s = (Ok deleted_file, s1)).
  { unfold file_details, head. unfold_monad. rewrite Hhead. simpl.
    by rewrite H404. }
  split_and!; try done.
  intros rest att. simpl. by rewrite (bind_Ok _ _ _ _ _ Hfd).
Qed.

Lemma file_details_not_found_witness :
  file_details gone_world "https://files/1" empty_state
  = (Ok deleted_file, {| fs := ∅; trace := [EvHead "https://files/1"] |}).
Proof.
  by destruct (file_details_not_found gone_world "https://files/1"
                 empty_state (mk_Response 404 ∅) eq_refl eq_refl) as [H _].
Defined.

(** C8.  When the metadata request succeeds and the content-disposition
    header (taken as empty when absent) holds no parsable filename,
    [file_details] raises [MalformedResponse] with a message that ends with
    the URL, and returns no record. *)
Theorem C8_missing_filename_is_malformed :
  ∀ W url s r,
    requests_head W (trace s) url = inr r →
    status_code r ≠ 404%Z →
    ¬ (400 ≤ status_code r < 600)%Z →
    let cd := default "" (headers r !! "content-disposition") in
    (∀ name, ¬ parsable_filename cd name) →
    ∃ message,
      file_details W url s
      = (Raise (MalformedResponse message),
         {| fs := fs s; trace := EvHead url :: trace s |})
      ∧ message = malformed_message cd url
      ∧ message = ("Failed to find filename='' in " +:+ cd +:+ " for url ") +:+ url.
Proof.
  intros W url s r Hhead H404 Hok cd Hno.
  exists (malformed_message cd url). split_and!; [|done|].
  - unfold file_details, head, raise_for_status. unfold_monad.
    rewrite Hhead. simpl.
    destruct (Z.eqb_spec (status_code r) 404); [done|].
    destruct ((400 <=? status_code r)%Z && (status_code r <? 600)%Z) eqn:Hst.
    { apply andb_prop in Hst as [?%Z.leb_le ?%Z.ltb_lt]. lia. }
    apply re_search_filename_None in Hno. fold cd. by rewrite Hno.
  - unfold malformed_message. by rewrite !string_app_assoc.
Qed.

Lemma C8_missing_filename_is_malformed_witness :
  ∃ message,
    file_details nameless_world "https://files/1" empty_state
    = (Raise (MalformedResponse message),
       {| fs := ∅; trace := [EvHead "https://files/1"] |})
    ∧ message
      = "Failed to find filename='' in attachment for url https://files/1".
Proof.
  destruct (C8_missing_filename_is_malformed nameless_world "https://files/1"
              empty_state
              (mk_Response 200 {[ "content-disposition" := "attachment" ]})
              eq_refl) as (message & Hfd & Hm & _).
  - done.
  - simpl. lia.
  - apply re_search_filename_None. by vm_compute.
  - exists message. split; [exact Hfd|]. rewrite Hm. by vm_compute.
Defined.

(** ** The archive folder *)

Lemma remove_tree_lookup p f q :
  remove_tree p f !! q = if under p q then None else f !! q.
Proof.
  unfold remove_tree. destruct (under p q) eqn:Hu.
  - apply map_lookup_filter_None. right. intros x _. simpl. by rewrite Hu.
  - destruct (f !! q) as [x|] eqn:Hq.
    + apply map_lookup_filter_Some. by split.
    + apply map_lookup_filter_None. by left.
Qed.

Lemma under_refl p : under p p = true.
Proof. unfold under. by rewrite String.eqb_refl. Qed.


Lemma append_length a b :
  String.length (a +:+ b) = (String.length a + String.length b)%nat.
Proof.
  induction a as [|x a IH]; [done|].
  change (S (String.length (a +:+ b)) = S (String.length a + String.length b)).
  by rewrite IH.
Qed.




Lemma make_ancestors_present p anc s :
  (∀ a, a ∈ anc → fs s !! a = Some Dir) →
  make_ancestors p anc s = (Ok tt, s).
Proof.
  induction anc as [|a anc IH]; intros Hall; simpl; [done|].
  unfold_monad. rewrite (Hall a) by by left.
  apply IH. intros b Hb. apply Hall. by right.
Qed.

(** [os.makedirs] on an existing entry fails and changes nothing. *)
Lemma os_makedirs_exists p s :
  fs_wf (fs s) → is_Some (fs s !! p) →
  os_makedirs p s = (Raise (FileExistsError p), s).
Proof.
  intros Hwf [n Hn]. unfold os_makedirs.
  rewrite (bind_Ok _ _ _ tt s).
  - unfold_monad. by rewrite Hn.
  - apply make_ancestors_present. intros a Ha. by apply (Hwf p).
Qed.




(** ** Failure of a run *)

Lemma state_eta s : {| fs := fs s; trace := trace s |} = s.
Proof. by destruct s. Qed.

Lemma _tear_down_folder_run self s :
  _tear_down_folder self s
  = (Ok tt, {| fs := torn_down (archive_folder_name self) (fs s);
               trace := trace s |}).
Proof.
  unfold _tear_down_folder, torn_down, shutil_rmtree, isdir. unfold_monad.
  destruct (fs s !! archive_folder_name self) as [[|c]|] eqn:Hn; simpl;
    rewrite ?Hn; by rewrite ?state_eta.
Qed.

Lemma torn_down_lookup name f q :
  torn_down name f !! q
  = if isdir f name && under name q then None else f !! q.
Proof.
  unfold torn_down. destruct (isdir f name); simpl; [|done].
  apply remove_tree_lookup.
Qed.

Lemma torn_down_not_dir name f : isdir (torn_down name f) name = false.
Proof.
  unfold isdir at 1. rewrite torn_down_lookup, under_refl, andb_true_r.
  destruct (isdir f name) eqn:Hd; [done|]. unfold isdir in Hd.
  by destruct (f !! name) as [[|?]|].
Qed.

Lemma archive_gathered_unfold W self tf hf jf o :
  archive_gathered W self tf hf jf o
  = (_setup_folder W self (overwrite_folder o) (download_attachments o)
                   (download_avatars o) hf ;;;
     try_except_Exception_reraise (guarded_body W self tf hf jf o)
                                  (_tear_down_folder self) ;;;
     when (delete_folder o) (_tear_down_folder self) ;;;
     ret (archive_folder_name self +:+ ".tgz")).
Proof. reflexivity. Qed.

(** What [archive_room] does once the folder is set up and the guarded body
    has raised. *)
Lemma archive_gathered_failure W self tf hf jf o s s1 e s2 :
  _setup_folder W self (overwrite_folder o) (download_attachments o)
                (download_avatars o) hf s = (Ok tt, s1) →
  guarded_body W self tf hf jf o s1 = (Raise e, s2) →
  archive_gathered W self tf hf jf o s
  = (Raise e,
     if is_Exception e
     then {| fs := torn_down (archive_folder_name self) (fs s2);
             trace := trace s2 |}
     else s2).
Proof.
  intros Hsetup Hbody. rewrite archive_gathered_unfold.
  rewrite (bind_Ok _ _ _ _ _ Hsetup). apply bind_Raise.
  unfold try_except_Exception_reraise. rewrite Hbody.
  destruct (is_Exception e); [|done]. by rewrite _tear_down_folder_run.
Qed.

(** C3, as stated, fails: an interrupt during compression leaves the
    populated folder in place. *)
Lemma C3_interrupt_leaves_folder :
  ∃ s1 s',
    _setup_folder interrupted_world sample_self true true true true empty_state
    = (Ok tt, s1)
    ∧ archive_gathered interrupted_world sample_self true true true
                       default_options empty_state
      = (Raise KeyboardInterrupt, s')
    ∧ isdir (fs s') "Team_Sync_abc123" = true
    ∧ fs s' !! "Team_Sync_abc123/space_details.json" = Some (RegFile "{}").
Proof.
  exists (_setup_folder interrupted_world sample_self true true true true
            empty_state).2,
         (archive_gathered interrupted_world sample_self true true true
            default_options empty_state).2.
  split_and!; by vm_compute.
Qed.

(** C3, amended.  When the folder is set up and archiving or compression
    raises an exception that derives from [Exception], [archive_room] removes
    the folder tree and raises that same exception: afterwards the folder is
    no directory, nothing of its tree is left, and every entry outside it is
    as the failed step left it. *)
Theorem C3_teardown_on_Exception :
  ∀ W room_id tf hf jf o s0 self s s1 e s2,
    _gather_room_information W room_id s0 = (Ok self, s) →
    _setup_folder W self (overwrite_folder o) (download_attachments o)
                  (download_avatars o) hf s = (Ok tt, s1) →
    guarded_body W self tf hf jf o s1 = (Raise e, s2) →
    is_Exception e = true →
    let name := archive_folder_name self in
    ∃ s3,
      archive_room W room_id tf hf jf o s0 = (Raise e, s3)
      ∧ trace s3 = trace s2
      ∧ isdir (fs s3) name = false
      ∧ (isdir (fs s2) name = true →
         ∀ q, under name q = true → fs s3 !! q = None)
      ∧ (∀ q, under name q = false → fs s3 !! q = fs s2 !! q).
Proof.
  intros W room_id tf hf jf o s0 self s s1 e s2 Hgather Hsetup Hbody He name.
  exists {| fs := torn_down name (fs s2); trace := trace s2 |}.
  split_and!.
  - unfold archive_room. rewrite (bind_Ok _ _ _ _ _ Hgather).
    rewrite (archive_gathered_failure _ _ _ _ _ _ _ _ _ _ Hsetup Hbody).
    by rewrite He.
  - done.
  - apply torn_down_not_dir.
  - intros Hd q Hq. simpl. by rewrite torn_down_lookup, Hd, Hq.
  - intros q Hq. simpl. by rewrite torn_down_lookup, Hq, andb_false_r.
Qed.

Lemma C3_teardown_on_Exception_witness :
  ∃ s3,
    archive_room failing_listing_world "abc123" true true true default_options
                 empty_state
    = (Raise (ApiError 502), s3)
    ∧ isdir (fs s3) "Team Sync_abc123" = false.
Proof.
  set (W := failing_listing_world).
  set (g := _gather_room_information W "abc123" empty_state).
  set (self := {| room := mk_Room "abc123" "Team Sync" "creator-id";
                  archive_folder_name := "Team Sync_abc123";
                  room_creator := SdkPerson "creator-id" [] "Someone" None;
                  messages := mk_MessageList "abc123" false |}).
  set (t := _setup_folder W self true true true true g.2).
  set (b := guarded_body W self true true true default_options t.2).
  destruct (C3_teardown_on_Exception W "abc123" true true true default_options
              empty_state self g.2 t.2 (ApiError 502) b.2)
    as (s3 & Hrun & _ & Hdir & _); [by vm_compute .. |].
  exists s3. split; [exact Hrun | exact Hdir].
Defined.

(** ** A deleted attachment in a whole run *)

(** C7.  The first half of the claim holds: a metadata request answered
    with 404 makes [file_details] return [File("", 0, "", "", True)] without
    raising, and the loop of [_archive] stores that record.  The second half
    fails: under the default options the record is handed to the download
    step with the file name [""], whose [open] of
    [<folder>/attachments/] raises [IsADirectoryError]; [archive_room] raises
    it, the folder is torn down and no archive is written.  The same run
    without the download of attachments completes. *)
Theorem C7_deleted_attachment_aborts_run :
  file_details deleted_attachment_world "https://files/1" empty_state
  = (Ok deleted_file, {| fs := ∅; trace := [EvHead "https://files/1"] |})
  ∧ (∃ ls s,
       archive_loop deleted_attachment_world true 0
         [message_at "a@x.com" 30 ["https://files/1"]] initial_loop_state
         empty_state = (Ok ls, s)
       ∧ attachments ls !! "https://files/1" = Some deleted_file)
  ∧ (∃ s',
       archive_room deleted_attachment_world "abc123" true true true
                    default_options empty_state
       = (Raise (IsADirectoryError "Team Sync_abc123/attachments/"), s')
       ∧ isdir (fs s') "Team Sync_abc123" = false
       ∧ fs s' !! "Team Sync_abc123.tgz" = None)
  ∧ (∃ s',
       archive_room deleted_attachment_world "abc123" true true true
                    without_attachments empty_state
       = (Ok "Team Sync_abc123.tgz", s')
       ∧ fs s' !! "Team Sync_abc123.tgz" = Some (RegFile "archive")).
Proof.
  split; [by vm_compute|]. split.
  { exists (match (archive_loop deleted_attachment_world true 0
         [message_at "a@x.com" 30 ["https://files/1"]] initial_loop_state
         empty_state).1 with Ok ls => ls | Raise _ => initial_loop_state end),
      (archive_loop deleted_attachment_world true 0
         [message_at "a@x.com" 30 ["https://files/1"]] initial_loop_state
         empty_state).2.
    split; by vm_compute. }
  split.
  - exists (archive_room deleted_attachment_world "abc123" true true true
              default_options empty_state).2.
    split_and!; by vm_compute.
  - exists (archive_room deleted_attachment_world "abc123" true true true
              without_attachments empty_state).2.
    split_and!; by vm_compute.
Qed.

(** ** The archive file after a failed compression *)

Lemma prefix_slash_tgz name :
  String.prefix (name +:+ "/") (name +:+ ".tgz") = false.
Proof.
  induction name as [|c name IH]; [done|].
  change (String.prefix (String c (name +:+ "/")) (String c (name +:+ ".tgz"))
          = false).
  simpl. by destruct (ascii_dec c c).
Qed.

(** The archive file lies beside the folder, not in it. *)
Lemma tgz_not_under name : under name (name +:+ ".tgz") = false.
Proof.
  unfold under. rewrite prefix_slash_tgz, orb_false_r.
  destruct (String.eqb_spec (name +:+ ".tgz") name) as [He|]; [|done].
  apply (f_equal String.length) in He. rewrite append_length in He.
  simpl in He. lia.
Qed.

Lemma _compress_folder_failure W self s sopen bytes e :
  open_w (archive_folder_name self +:+ ".tgz") s = (Ok tt, sopen) →
  is_Some (fs sopen !! archive_folder_name self) →
  tar_add W (trace sopen) (fs sopen) (archive_folder_name self)
  = (bytes, Some e) →
  _compress_folder W self s
  = (Raise e,
     {| fs := <[archive_folder_name self +:+ ".tgz" := RegFile bytes]> (fs sopen);
        trace := EvTarAdd (archive_folder_name self) :: trace sopen |}).
Proof.
  intros Hopen [n Hn] Htar. unfold _compress_folder.
  rewrite (bind_Ok _ _ _ _ _ Hopen). unfold_monad. rewrite Hn, Htar. done.
Qed.

(** C10.  When [tarfile.open] has created the archive file and [tar.add]
    then raises, [archive_room] raises that exception and the file
    [<folder>.tgz] stays on disk with the bytes written so far; entries
    outside the folder tree are untouched by the failure path, and
    [_tear_down_folder] never changes the archive file. *)
Theorem C10_partial_archive_file_remains :
  ∀ W self tf hf jf o s s1 s2 sopen bytes e,
    _setup_folder W self (overwrite_folder o) (download_attachments o)
                  (download_avatars o) hf s = (Ok tt, s1) →
    _archive W self (reverse_order o) (download_attachments o)
             (download_avatars o) (download_workers o) tf hf jf
             (timestamp_format o) s1 = (Ok tt, s2) →
    open_w (archive_folder_name self +:+ ".tgz") s2 = (Ok tt, sopen) →
    is_Some (fs sopen !! archive_folder_name self) →
    tar_add W (trace sopen) (fs sopen) (archive_folder_name self)
    = (bytes, Some e) →
    let name := archive_folder_name self in
    let tgz := name +:+ ".tgz" in
    ∃ s4,
      archive_gathered W self tf hf jf o s = (Raise e, s4)
      ∧ fs s4 !! tgz = Some (RegFile bytes)
      ∧ (∀ q, under name q = false →
           fs s4 !! q = <[tgz := RegFile bytes]> (fs sopen) !! q)
      ∧ (∀ sx, ∃ sy, _tear_down_folder self sx = (Ok tt, sy)
                     ∧ fs sy !! tgz = fs sx !! tgz).
Proof.
  intros W self tf hf jf o s s1 s2 sopen bytes e Hsetup Harch Hopen Hfolder
         Htar name tgz.
  pose proof (_compress_folder_failure _ _ _ _ _ _ Hopen Hfolder Htar) as Hc.
  assert (Hbody : guarded_body W self tf hf jf o s1
                  = (Raise e,
                     {| fs := <[tgz := RegFile bytes]> (fs sopen);
                        trace := EvTarAdd name :: trace sopen |})).
  { unfold guarded_body. by rewrite (bind_Ok _ _ _ _ _ Harch). }
  pose proof (archive_gathered_failure _ _ _ _ _ _ _ _ _ _ Hsetup Hbody) as Hrun.
  eexists. split; [exact Hrun|]. split_and!.
  - destruct (is_Exception e); simpl.
    + rewrite torn_down_lookup. fold name tgz.
      rewrite (tgz_not_under name : under name tgz = false), andb_false_r.
      apply lookup_insert_eq.
    + apply lookup_insert_eq.
  - intros q Hq. destruct (is_Exception e); simpl; [|done].
    rewrite torn_down_lookup. fold name. by rewrite Hq, andb_false_r.
  - intros sx. eexists. split; [apply _tear_down_folder_run|]. simpl.
    rewrite torn_down_lookup. fold name tgz.
    by rewrite (tgz_not_under name : under name tgz = false), andb_false_r.
Qed.

Lemma C10_partial_archive_file_remains_witness :
  ∃ s4,
    archive_gathered broken_tar_world sample_self true true true default_options
                     empty_state
    = (Raise (TarError "unreadable entry"), s4)
    ∧ fs s4 !! "Team_Sync_abc123.tgz" = Some (RegFile "partial")
    ∧ isdir (fs s4) "Team_Sync_abc123" = false.
Proof.
  set (W := broken_tar_world).
  set (t := _setup_folder W sample_self true true true true empty_state).
  set (a := _archive W sample_self true true true 15 true true true
                     "%Y-%m-%dT%H:%M:%S" t.2).
  set (p := open_w "Team_Sync_abc123.tgz" a.2).
  destruct (C10_partial_archive_file_remains W sample_self true true true
              default_options empty_state t.2 a.2 p.2 "partial"
              (TarError "unreadable entry"))
    as (s4 & Hrun & Htgz & _); [by vm_compute .. | | by vm_compute |].
  { exists Dir. by vm_compute. }
  exists s4. split_and!; [done | done |].
  assert (Hv : (archive_gathered W sample_self true true true default_options
                  empty_state).2 = s4) by by rewrite Hrun.
  rewrite <- Hv. by vm_compute.
Defined.

(** ** Downloads *)

(** Once a failure is recorded the pool ends by raising it. *)
Lemma run_pool_keeps_failure W self folder links order : ∀ e s,
  ∃ s', run_pool W self folder links order (Some e) s = (Raise e, s').
Proof.
  induction order as [|url rest IH]; intros e s; simpl.
  - by eexists.
  - destruct (links !! url) as [f|]; [|apply IH].
    destruct (_download_file W self folder url (filename f) s) as [[[]|e'] s1];
      simpl; apply IH.
Qed.

(** A download that raises makes the whole operation raise: the first
    failure in the order of completion is the one that comes out. *)
Lemma run_pool_first_failure W self folder links : ∀ order s r s',
  run_pool W self folder links order None s = (r, s') →
  match r with
  | Ok _ =>
      ∀ url f, url ∈ order → links !! url = Some f →
        ∃ t t', _download_file W self folder url (filename f) t = (Ok tt, t')
  | Raise e =>
      ∃ url f t t', url ∈ order ∧ links !! url = Some f
        ∧ _download_file W self folder url (filename f) t = (Raise e, t')
  end.
Proof.
  induction order as [|url rest IH]; intros s r s' H; simpl in H.
  - unfold ret in H. simplify_eq. intros url f Hin. by apply elem_of_nil in Hin.
  - destruct (links !! url) as [f|] eqn:Hl.
    + destruct (_download_file W self folder url (filename f) s)
        as [[[]|e'] s1] eqn:Hd.
      * apply IH in H. destruct r as [[]|e].
        -- intros u g Hin Hg. apply elem_of_cons in Hin as [-> | Hin].
           ++ rewrite Hl in Hg. simplify_eq. eauto.
           ++ by apply (H u g).
        -- destruct H as (u & g & t & t' & Hin & Hg & Hf).
           exists u, g, t, t'. split_and!; [by right | done | done].
      * simpl in H.
        destruct (run_pool_keeps_failure W self folder links rest e' s1)
          as [s'' Hk].
        rewrite Hk in H. simplify_eq.
        exists url, f, s, s1. split_and!; [by left | done | done].
    + apply IH in H. destruct r as [[]|e].
      * intros u g Hin Hg. apply elem_of_cons in Hin as [-> | Hin].
        -- by rewrite Hl in Hg.
        -- by apply (H u g).
      * destruct H as (u & g & t & t' & Hin & Hg & Hf).
        exists u, g, t, t'. split_and!; [by right | done | done].
Qed.

(** The status of the body request is never looked at. *)
Lemma _download_file_ignores_status W self folder url name s r :
  requests_get W (trace s) url = inr r →
  raw_error r = None →
  let p := path_join (path_join (archive_folder_name self) folder) name in
  open_w p {| fs := fs s; trace := EvGet url :: trace s |}
  = (Ok tt, {| fs := <[p := RegFile ""]> (fs s); trace := EvGet url :: trace s |}) →
  _download_file W self folder url name s
  = (Ok tt, {| fs := <[p := RegFile (raw r)]> (<[p := RegFile ""]> (fs s));
               trace := EvGet url :: trace s |}).
Proof.
  intros Hget Hraw p Hopen. unfold _download_file. fold p.
  rewrite (bind_Ok _ _ _ (trace s) s) by done.
  rewrite (bind_Ok _ _ _ tt {| fs := fs s; trace := EvGet url :: trace s |}) by done.
  rewrite Hget. rewrite (bind_Ok _ _ _ r _) by done.
  rewrite (bind_Ok _ _ _ _ _ Hopen). unfold_monad. by rewrite Hraw.
Qed.

(** C6.  A body request answered with status 500 does not fail the
    download: [_download_files] returns normally and the error page is
    stored under the attachment's name.  A failure of the transport, by
    contrast, comes out of [_download_files]. *)
Theorem C6_error_status_is_not_a_failure :
  (∃ s',
     _download_files error_page_world sample_self "attachments" one_link 15
                     prepared_state = (Ok tt, s')
     ∧ fs s' !! "Team_Sync_abc123/attachments/a.txt"
       = Some (RegFile "Internal Server Error")
     ∧ trace s' = [EvGet "https://files/1"])
  ∧ (∃ s',
       _download_files offline_world sample_self "attachments" one_link 15
                       prepared_state
       = (Raise (RequestException "connection refused"), s')).
Proof.
  split.
  - exists (_download_files error_page_world sample_self "attachments" one_link
              15 prepared_state).2.
    split_and!; by vm_compute.
  - exists (_download_files offline_world sample_self "attachments" one_link 15
              prepared_state).2.
    by vm_compute.
Qed.

(* ===================================================================== *)
(** * Further properties of the code *)
(* ===================================================================== *)

(** ** More on the filename pattern *)

Lemma scan_quote_exact name post :
  dquote ∉ list_ascii_of_string name →
  newline ∉ list_ascii_of_string name →
  scan_quote (name +:+ String dquote post) = Some name.
Proof.
  induction name as [|c name IH]; intros Hq Hn; [done|].
  simpl in Hq, Hn. apply not_elem_of_cons in Hq as [Hcq Hq].
  apply not_elem_of_cons in Hn as [Hcn Hn].
  change (scan_quote (String c (name +:+ String dquote post)) = Some (String c name)).
  simpl. destruct (Ascii.eqb_spec c dquote) as [->|_]; [done|].
  destruct (Ascii.eqb_spec c newline) as [->|_]; [done|].
  by rewrite IH.
Qed.

Lemma match_filename_at_exact kw name post :
  ci_equal filename_keyword kw → name ≠ "" →
  dquote ∉ list_ascii_of_string name →
  newline ∉ list_ascii_of_string name →
  match_filename_at (kw +:+ name +:+ String dquote post) = Some name.
Proof.
  intros Hci Hne Hq Hn. unfold match_filename_at.
  rewrite (strip_prefix_ci_complete _ _ _ Hci).
  destruct name as [|c name]; [congruence|]. simpl in Hq, Hn.
  apply not_elem_of_cons in Hq as [Hcq Hq].
  apply not_elem_of_cons in Hn as [Hcn Hn].
  change (String c name +:+ String dquote post)
    with (String c (name +:+ String dquote post)).
  cbv beta iota. rewrite scan_quote_exact by done.
  by destruct (Ascii.eqb_spec c newline) as [->|_].
Qed.

Lemma match_filename_at_needs_f c s :
  lower c ≠ "f"%char → match_filename_at (String c s) = None.
Proof.
  intros Hc. unfold match_filename_at, filename_keyword.
  change (strip_prefix_ci ("filename=" +:+ String dquote "") (String c s))
    with (if ci_eqb "f" c
          then strip_prefix_ci ("ilename=" +:+ String dquote "") s else None).
  unfold ci_eqb. change (lower "f") with "f"%char.
  destruct (Ascii.eqb_spec "f" (lower c)) as [He|_]; [by rewrite <- He in Hc | done].
Qed.

(** The search skips a text without the letter f. *)
Lemma re_search_filename_exact :
  ∀ pre kw name post,
    (∀ c, c ∈ list_ascii_of_string pre → lower c ≠ "f"%char) →
    ci_equal filename_keyword kw →
    name ≠ "" →
    dquote ∉ list_ascii_of_string name →
    newline ∉ list_ascii_of_string name →
    re_search_filename (pre +:+ kw +:+ name +:+ String dquote post) = Some name.
Proof.
  intros pre kw name post Hpre Hci Hne Hq Hn.
  induction pre as [|c pre IH].
  - apply re_search_filename_at. by apply match_filename_at_exact.
  - change (String c pre +:+ kw +:+ name +:+ String dquote post)
      with (String c (pre +:+ kw +:+ name +:+ String dquote post)).
    cbn [re_search_filename].
    rewrite match_filename_at_needs_f by (apply Hpre; by left).
    apply IH. intros c' Hc'. apply Hpre. by right.
Qed.

(** X1.  A header that reads [filename="name"] after a text without the
    letter f yields exactly [name], whatever the case of the keyword and
    whatever follows the closing quote. *)
Theorem re_search_filename_round_trip :
  ∀ pre kw name post,
    (∀ c, c ∈ list_ascii_of_string pre → lower c ≠ "f"%char) →
    ci_equal filename_keyword kw →
    name ≠ "" →
    dquote ∉ list_ascii_of_string name →
    newline ∉ list_ascii_of_string name →
    re_search_filename (pre +:+ kw +:+ name +:+ String dquote post) = Some name.
Proof. exact re_search_filename_exact. Qed.

Lemma re_search_filename_round_trip_witness :
  re_search_filename ("attachment; filename=" +:+ quoted "a.txt" +:+ "; size=4")
  = Some "a.txt".
Proof.
  apply (re_search_filename_round_trip "attachment; " filename_keyword "a.txt"
           "; size=4"); [|done|done| |].
  - intros c Hc. vm_compute in Hc.
    repeat (apply elem_of_cons in Hc as [-> | Hc]; [by vm_compute|]).
    by apply elem_of_nil in Hc.
  - intros Hc. vm_compute in Hc.
    repeat (apply elem_of_cons in Hc as [Hc | Hc]; [done|]).
    by apply elem_of_nil in Hc.
  - intros Hc. vm_compute in Hc.
    repeat (apply elem_of_cons in Hc as [Hc | Hc]; [done|]).
    by apply elem_of_nil in Hc.
Defined.

(** X2.  What the search returns is a parsable filename of the header, and
    it returns nothing only when the header holds none. *)
Theorem re_search_filename_finds_filenames :
  ∀ h,
    match re_search_filename h with
    | Some g => parsable_filename h g
    | None => ∀ name, ¬ parsable_filename h name
    end.
Proof.
  intros h. destruct (re_search_filename h) as [g|] eqn:Hs.
  - by apply re_search_filename_sound.
  - by apply re_search_filename_None.
Qed.

(** ** More on attachment metadata *)

(** X3.  Whatever the answer to the metadata request, [file_details] makes
    exactly one HEAD request and leaves the file system alone. *)
Theorem file_details_one_request :
  ∀ W url s,
    (file_details W url s).2 = {| fs := fs s; trace := EvHead url :: trace s |}.
Proof.
  intros W url s. destruct (file_details W url s) as [r s1] eqn:H. simpl.
  pose proof (file_details_fs _ _ _ _ _ H) as Hfs.
  pose proof (file_details_trace _ _ _ _ _ H) as Htr.
  destruct s1 as [f t]. simpl in *. by subst.
Qed.

(** X4.  A successful answer whose content-disposition reads
    [filename="name"] gives a record with that name that is not marked
    deleted; the length falls back to the number 0 and the type to the empty
    string when their headers are absent. *)
Theorem file_details_names_the_file :
  ∀ W url s r pre kw name post,
    requests_head W (trace s) url = inr r →
    status_code r ≠ 404%Z →
    ¬ (400 ≤ status_code r < 600)%Z →
    headers r !! "content-disposition"
    = Some (pre +:+ kw +:+ name +:+ String dquote post) →
    (∀ c, c ∈ list_ascii_of_string pre → lower c ≠ "f"%char) →
    ci_equal filename_keyword kw →
    name ≠ "" →
    dquote ∉ list_ascii_of_string name →
    newline ∉ list_ascii_of_string name →
    ∃ f,
      file_details W url s
      = (Ok f, {| fs := fs s; trace := EvHead url :: trace s |})
      ∧ filename f = name
      ∧ deleted f = false
      ∧ content_disposition f = pre +:+ kw +:+ name +:+ String dquote post
      ∧ content_length f
        = match headers r !! "content-length" with
          | Some l => PyStr l
          | None => PyInt 0
          end
      ∧ content_type f = default "" (headers r !! "content-type").
Proof.
  intros W url s r pre kw name post Hhead H404 Hok Hcd Hpre Hci Hne Hq Hn.
  pose proof (re_search_filename_exact _ _ _ post Hpre Hci Hne Hq Hn) as Hre.
  exists (mk_File (pre +:+ kw +:+ name +:+ String dquote post)
                  (from_option PyStr (PyInt 0) (headers r !! "content-length"))
                  (default "" (headers r !! "content-type")) name false).
  split.
  - unfold file_details, head, raise_for_status. unfold_monad.
    rewrite Hhead. simpl.
    destruct (Z.eqb_spec (status_code r) 404); [lia|].
    destruct ((400 <=? status_code r)%Z && (status_code r <? 600)%Z) eqn:Hst.
    { apply andb_prop in Hst as [?%Z.leb_le ?%Z.ltb_lt]. lia. }
    rewrite Hcd. simpl. rewrite Hre. reflexivity.
  - simpl. split_and!; done.
Qed.

Lemma file_details_names_the_file_witness :
  ∃ f,
    file_details quiet_world "https://files/1" empty_state
    = (Ok f, {| fs := ∅; trace := [EvHead "https://files/1"] |})
    ∧ filename f = "a.txt" ∧ deleted f = false ∧ content_length f = PyInt 0.
Proof.
  destruct (file_details_names_the_file quiet_world "https://files/1" empty_state
              (mk_Response 200
                 {[ "content-disposition" :=
                      "attachment; filename=" +:+ quoted "a.txt" ]})
              "attachment; " filename_keyword "a.txt" "")
    as (f & Hfd & Hname & Hdel & _ & Hlen & _);
    [done | done | simpl; lia | done | | done | done | | |].
  - intros c Hc. vm_compute in Hc.
    repeat (apply elem_of_cons in Hc as [-> | Hc]; [by vm_compute|]).
    by apply elem_of_nil in Hc.
  - intros Hc. vm_compute in Hc.
    repeat (apply elem_of_cons in Hc as [Hc | Hc]; [done|]).
    by apply elem_of_nil in Hc.
  - intros Hc. vm_compute in Hc.
    repeat (apply elem_of_cons in Hc as [Hc | Hc]; [done|]).
    by apply elem_of_nil in Hc.
  - exists f. split_and!; try done.
Defined.

(** X5.  A failure of the metadata request comes out of [file_details]: the
    transport's exception as it is, and [HTTPError] for a status from 400 to
    599 other than 404. *)
Theorem file_details_failure_propagates :
  ∀ W url s,
    let s1 := {| fs := fs s; trace := EvHead url :: trace s |} in
    match requests_head W (trace s) url with
    | inl e => file_details W url s = (Raise e, s1)
    | inr r =>
        status_code r ≠ 404%Z → (400 ≤ status_code r < 600)%Z →
        file_details W url s = (Raise (HTTPError (status_code r)), s1)
    end.
Proof.
  intros W url s s1. unfold file_details, head, raise_for_status. unfold_monad.
  destruct (requests_head W (trace s) url) as [e|r]; simpl; [done|].
  intros H404 Hst. destruct (Z.eqb_spec (status_code r) 404); [done|].
  destruct (Z.leb_spec 400 (status_code r)); [|lia].
  destruct (Z.ltb_spec (status_code r) 600); [|lia]. done.
Qed.

Lemma file_details_failure_propagates_witness :
  file_details (with_requests_head (λ _ _, inr (mk_Response 503 ∅)) quiet_world)
               "https://files/1" empty_state
  = (Raise (HTTPError 503), {| fs := ∅; trace := [EvHead "https://files/1"] |}).
Proof.
  apply (file_details_failure_propagates
           (with_requests_head (λ _ _, inr (mk_Response 503 ∅)) quiet_world)
           "https://files/1" empty_state); simpl; lia.
Defined.

(** ** More on the archive folder *)



(** X7.  When the folder's name belongs to a regular file, [_setup_folder]
    raises [FileExistsError] and changes nothing, with or without
    [overwrite_folder]: only a directory is ever removed. *)
Theorem _setup_folder_regular_file :
  ∀ W self ow da dv html s c,
    fs s !! archive_folder_name self = Some (RegFile c) →
    fs_wf (fs s) →
    _setup_folder W self ow da dv html s
    = (Raise (FileExistsError (archive_folder_name self)), s).
Proof.
  intros W self ow da dv html s c Hfile Hwf. unfold _setup_folder.
  rewrite (bind_Ok _ _ _ (fs s) s) by done. cbv beta.
  unfold isdir. rewrite Hfile. simpl.
  rewrite (bind_Ok _ _ _ tt s) by done.
  apply bind_Raise. apply os_makedirs_exists; [done | by rewrite Hfile].
Qed.


Lemma string_app_inv_head a b c : a +:+ b = a +:+ c → b = c.
Proof.
  induction a as [|x a IH]; [done|].
  change (String x (a +:+ b) = String x (a +:+ c) → b = c).
  intros [= H]. by apply IH.
Qed.

Lemma prefix_app a b c : String.prefix (a +:+ b) (a +:+ c) = String.prefix b c.
Proof.
  induction a as [|x a IH]; [done|].
  change (String.prefix (String x (a +:+ b)) (String x (a +:+ c))
          = String.prefix b c).
  simpl. by destruct (ascii_dec x x).
Qed.

Lemma under_child name child :
  under name (name +:+ String "/" child) = true.
Proof.
  unfold under. rewrite (prefix_app name "/" (String "/" child)).
  assert (Hp : String.prefix "/" (String "/" child) = true).
  { simpl. by destruct child. }
  rewrite Hp. apply orb_true_r.
Qed.

Lemma child_not_parent name child : name +:+ String "/" child ≠ name.
Proof.
  intros H. apply (f_equal String.length) in H. rewrite append_length in H.
  simpl in H. lia.
Qed.

Lemma string_app_empty_r a : a +:+ "" = a.
Proof.
  induction a as [|x a IH]; [done|].
  change (String x (a +:+ "") = String x a). by rewrite IH.
Qed.

Lemma ancestors_from_app p : ∀ acc q,
  ancestors_from acc (p +:+ String "/" q)
  = ancestors_from acc p
    ++ (if String.eqb (acc +:+ p) "" then [] else [acc +:+ p])
    ++ ancestors_from (acc +:+ p +:+ "/") q.
Proof.
  induction p as [|c p IH]; intros acc q.
  - change ("" +:+ String "/" q) with (String "/" q). simpl.
    by rewrite string_app_empty_r.
  - change (String c p +:+ String "/" q) with (String c (p +:+ String "/" q)).
    cbn [ancestors_from].
    destruct (Ascii.eqb c "/") eqn:Hc.
    + rewrite IH. apply Ascii.eqb_eq in Hc as ->.
      rewrite <- !app_assoc, !string_app_assoc. reflexivity.
    + rewrite IH.
      rewrite !string_app_assoc. reflexivity.
Qed.

Lemma ancestors_child name child :
  name ≠ "" → has_slash child = false →
  ancestors (name +:+ String "/" child) = ancestors name ++ [name].
Proof.
  intros Hne Hchild. unfold ancestors. rewrite ancestors_from_app.
  change ("" +:+ name) with name.
  destruct (String.eqb_spec name ""); [done|]. f_equal.
  assert (Hnil : ∀ acc, ancestors_from acc child = []).
  { clear -Hchild. induction child as [|c child IH]; intros acc; [done|].
    simpl in *. apply orb_false_elim in Hchild as [Hc Hrest].
    rewrite Hc. by apply IH. }
  by rewrite Hnil.
Qed.

(** [os.makedirs] of a missing child of an existing directory. *)
Lemma os_makedirs_child name child s :
  name ≠ "" → has_slash child = false →
  (∀ a, a ∈ ancestors name → fs s !! a = Some Dir) →
  fs s !! name = Some Dir →
  fs s !! (name +:+ String "/" child) = None →
  os_makedirs (name +:+ String "/" child) s
  = (Ok tt, {| fs := <[name +:+ String "/" child := Dir]> (fs s);
               trace := trace s |}).
Proof.
  intros Hne Hchild Hanc Hname Hfree. unfold os_makedirs.
  rewrite (bind_Ok _ _ _ tt s).
  - unfold_monad. by rewrite Hfree.
  - apply make_ancestors_present. intros a Ha.
    rewrite ancestors_child in Ha by done.
    apply elem_of_app in Ha as [Ha|Ha]; [by apply Hanc|].
    by apply list_elem_of_singleton in Ha as ->.
Qed.

(** X8.  On a free place whose parent directories exist, [_setup_folder]
    without HTML output creates the folder and, as requested, its
    [attachments] and [avatars] directories, and nothing else. *)
Theorem _setup_folder_fresh :
  ∀ W self ow da dv s,
    archive_folder_name self ≠ "" →
    (∀ q, under (archive_folder_name self) q = true → fs s !! q = None) →
    (∀ a, a ∈ ancestors (archive_folder_name self) → fs s !! a = Some Dir) →
    _setup_folder W self ow da dv false s
    = (Ok tt, {| fs := fresh_folder (archive_folder_name self) da dv (fs s);
                 trace := trace s |}).
Proof.
  intros W self ow da dv s Hne Hfree Hanc.
  set (name := archive_folder_name self) in *.
  assert (Hname : fs s !! name = None) by (apply Hfree, under_refl).
  assert (Hancne : ∀ a, a ∈ ancestors name → a ≠ name).
  { intros a Ha ->. apply Hanc in Ha. by rewrite Hname in Ha. }
  unfold _setup_folder. fold name.
  rewrite (bind_Ok _ _ _ (fs s) s) by done. cbv beta.
  unfold isdir at 1. rewrite Hname. simpl.
  rewrite (bind_Ok _ _ _ tt s) by done.
  set (s1 := {| fs := <[name := Dir]> (fs s); trace := trace s |}).
  assert (H1 : os_makedirs name s = (Ok tt, s1)).
  { unfold os_makedirs. rewrite (bind_Ok _ _ _ tt s).
    - unfold_monad. by rewrite Hname.
    - by apply make_ancestors_present. }
  rewrite (bind_Ok _ _ _ _ _ H1).
  set (s2 := {| fs := if da then <[name +:+ "/attachments" := Dir]> (fs s1)
                      else fs s1;
                trace := trace s |}).
  assert (H2 : when da (os_makedirs (name +:+ "/attachments")) s1 = (Ok tt, s2)).
  { unfold s2. destruct da; simpl; [|done].
    rewrite (os_makedirs_child name "attachments" s1); try done.
    - intros a Ha. simpl. rewrite lookup_insert_ne by (symmetry; by apply Hancne).
      by apply Hanc.
    - simpl. apply lookup_insert_eq.
    - simpl. rewrite lookup_insert_ne by (symmetry; apply child_not_parent).
      apply Hfree, under_child. }
  rewrite (bind_Ok _ _ _ _ _ H2).
  set (s3 := {| fs := fresh_folder name da dv (fs s); trace := trace s |}).
  assert (H3 : when dv (os_makedirs (name +:+ "/avatars")) s2 = (Ok tt, s3)).
  { unfold s3, fresh_folder. destruct dv; simpl; [|done].
    rewrite (os_makedirs_child name "avatars" s2); try done.
    - intros a Ha. simpl.
      assert (Ha1 : (<[name := Dir]> (fs s)) !! a = Some Dir).
      { rewrite lookup_insert_ne by (symmetry; by apply Hancne). by apply Hanc. }
      destruct da; [|done]. rewrite lookup_insert_ne; [done|].
      intros He. rewrite <- He, lookup_insert_ne in Ha1
        by (symmetry; apply child_not_parent).
      rewrite Hfree in Ha1 by apply under_child. done.
    - simpl. destruct da.
      + rewrite lookup_insert_ne by apply child_not_parent. apply lookup_insert_eq.
      + apply lookup_insert_eq.
    - simpl.
      assert (Hav : (<[name := Dir]> (fs s)) !! (name +:+ "/avatars") = None).
      { rewrite lookup_insert_ne by (symmetry; apply child_not_parent).
        apply Hfree, under_child. }
      destruct da; [|done]. rewrite lookup_insert_ne; [done|].
      intros He. by apply string_app_inv_head in He. }
  rewrite (bind_Ok _ _ _ _ _ H3). done.
Qed.

Lemma _setup_folder_fresh_witness :
  _setup_folder quiet_world sample_self true true false false empty_state
  = (Ok tt, {| fs := <["Team_Sync_abc123/attachments" := Dir]>
                       (<["Team_Sync_abc123" := Dir]> ∅);
               trace := [] |}).
Proof.
  apply (_setup_folder_fresh quiet_world sample_self true true false empty_state).
  - done.
  - intros q _. apply lookup_empty.
  - intros a Ha. vm_compute in Ha. by apply elem_of_nil in Ha.
Defined.

Lemma regular_file_state_wf : fs_wf (fs regular_file_state).
Proof.
  intros p Hp a Ha. simpl in Hp.
  apply lookup_insert_is_Some in Hp as [<- | [_ Hp]].
  - vm_compute in Ha. by apply elem_of_nil in Ha.
  - rewrite lookup_empty in Hp. by destruct Hp.
Qed.

Lemma _setup_folder_regular_file_witness :
  _setup_folder quiet_world sample_self true true true true regular_file_state
  = (Raise (FileExistsError "Team_Sync_abc123"), regular_file_state).
Proof.
  apply (_setup_folder_regular_file quiet_world sample_self true true true true
           regular_file_state "notes"); [done | apply regular_file_state_wf].
Defined.

(** ** Gathering the room *)

(** X9.  A completed [_gather_room_information] has made three calls in
    order (room, creator, own identity) and no listing request; the
    container it stores asks for the messages that mention the caller exactly
    when the caller is a bot; the folder is named
    [sanitize_name(title)_room_id]; the file system is left alone. *)
Theorem _gather_room_information_completed :
  ∀ W room_id s self s',
    _gather_room_information W room_id s = (Ok self, s') →
    ∃ me_type,
      sdk_rooms_get W (trace s) room_id = inr (room self)
      ∧ sdk_people_me_type W
          (EvCreatorGet (creatorId (room self)) :: EvRoomsGet room_id :: trace s)
        = inr me_type
      ∧ messages self = mk_MessageList room_id (String.eqb me_type "bot")
      ∧ trace s' = gather_trace room_id (creatorId (room self)) (trace s)
      ∧ fs s' = fs s
      ∧ archive_folder_name self
        = sanitize_name W (title (room self)) +:+ "_" +:+ room_id.
Proof.
  intros W room_id s self s' H. unfold _gather_room_information in H.
  unfold_monad.
  destruct (sdk_rooms_get W (trace s) room_id) as [e|rm] eqn:Hroom;
    simpl in H; [done|].
  destruct (sdk_people_get W (EvRoomsGet room_id :: trace s) (creatorId rm))
    as [e|p] eqn:Hp; simpl in H.
  - destruct e as [c| | | | | | | | | | | | |]; simpl in H; try done.
    destruct (c =? 404)%Z; simpl in H; [|done].
    destruct (sdk_people_me_type W _) as [e|ty] eqn:Hme; simpl in H; [done|].
    simplify_eq. exists ty. simpl. split_and!; done.
  - destruct (sdk_people_me_type W _) as [e|ty] eqn:Hme; simpl in H; [done|].
    simplify_eq. exists ty. simpl. split_and!; done.
Qed.

Lemma _gather_room_information_completed_witness :
  ∃ self s',
    _gather_room_information bot_world "abc123" empty_state = (Ok self, s')
    ∧ trace s' = [EvPeopleMe; EvCreatorGet "creator-id"; EvRoomsGet "abc123"]
    ∧ messages self = mk_MessageList "abc123" true
    ∧ archive_folder_name self = "Team Sync_abc123".
Proof.
  destruct (_gather_room_information bot_world "abc123" empty_state)
    as [[self|e] s'] eqn:E; [|by vm_compute in E].
  exists self, s'. split; [done|].
  destruct (_gather_room_information_completed _ _ _ _ _ E)
    as (ty & Hroom & Hme & Hmsgs & Htr & _ & Hname).
  simpl in Hroom, Hme. simplify_eq. rewrite <- Hroom in Htr, Hname.
  split_and!; [exact Htr | exact Hmsgs | exact Hname].
Defined.

(** X10.  When the directory answers 404 for the room's creator, gathering
    goes on with the placeholder [UserNotFound(creatorId, ["unknown"],
    "Person Not Found", None)] as the creator. *)
Theorem _gather_room_information_unknown_creator :
  ∀ W room_id s rm me_type,
    sdk_rooms_get W (trace s) room_id = inr rm →
    sdk_people_get W (EvRoomsGet room_id :: trace s) (creatorId rm)
    = inl (ApiError 404) →
    sdk_people_me_type W (EvCreatorGet (creatorId rm) :: EvRoomsGet room_id :: trace s)
    = inr me_type →
    _gather_room_information W room_id s
    = (Ok {| room := rm;
             archive_folder_name := sanitize_name W (title rm) +:+ "_" +:+ room_id;
             room_creator := unknown_creator (creatorId rm);
             messages := mk_MessageList room_id (String.eqb me_type "bot") |},
       {| fs := fs s;
          trace := gather_trace room_id (creatorId rm) (trace s) |}).
Proof.
  intros W room_id s rm me_type Hroom Hp Hme.
  unfold _gather_room_information. unfold_monad.
  rewrite Hroom. simpl. rewrite Hp. simpl. by rewrite Hme.
Qed.

Lemma _gather_room_information_unknown_creator_witness :
  ∃ self s',
    _gather_room_information strangers_world "abc123" empty_state = (Ok self, s')
    ∧ room_creator self = unknown_creator "creator-id"
    ∧ displayName_of (room_creator self) = "Person Not Found".
Proof.
  eexists _, _. split.
  - by apply (_gather_room_information_unknown_creator strangers_world "abc123"
                empty_state (mk_Room "abc123" "Team Sync" "creator-id")
                "person").
  - done.
Defined.

(** X11.  When gathering raises, [archive_room] raises the same exception
    and has created nothing: the file system is as before the call. *)
Theorem archive_room_gather_failure :
  ∀ W room_id tf hf jf o s e s',
    _gather_room_information W room_id s = (Raise e, s') →
    archive_room W room_id tf hf jf o s = (Raise e, s')
    ∧ fs s' = fs s.
Proof.
  intros W room_id tf hf jf o s e s' H. split.
  - unfold archive_room. by apply bind_Raise.
  - unfold _gather_room_information in H. monad_cases; done.
Qed.

Lemma archive_room_gather_failure_witness :
  ∃ s',
    archive_room no_directory_world "abc123" true true true default_options
                 empty_state = (Raise (ApiError 500), s')
    ∧ fs s' = ∅.
Proof.
  destruct (_gather_room_information no_directory_world "abc123" empty_state)
    as [[self|e] s'] eqn:E; [by vm_compute in E|].
  assert (He : e = ApiError 500) by (vm_compute in E; congruence).
  subst e. exists s'.
  exact (archive_room_gather_failure _ _ true true true default_options _ _ _ E).
Defined.

(** ** A completed run *)





(** X13.  A completed [_archive] has written [space_details.json] into the
    folder, whatever formats and downloads were requested; it holds the dump
    of the room and its creator. *)
Theorem _archive_writes_space_details :
  ∀ W self ro da dv workers tf hf jf fmt s s',
    _archive W self ro da dv workers tf hf jf fmt s = (Ok tt, s') →
    ∃ content,
      json_space W (room self) (room_creator self) = inr content
      ∧ fs s' !! path_join (archive_folder_name self) "space_details.json"
        = Some (RegFile content).
Proof.
  intros W self ro da dv workers tf hf jf fmt s s' H. unfold _archive in H.
  apply bind_inv in H as [(yielded & t & _ & H)|(e & _ & ?)]; [|done].
  apply bind_inv in H as [(ls & t0 & _ & H)|(e & _ & ?)]; [|done].
  apply bind_inv in H as [([] & t0' & _ & H)|(e & _ & ?)]; [|done].
  destruct (reorder ro ls) as [repeat processed].
  apply bind_inv in H as [([] & t1 & _ & H)|(e & _ & ?)]; [|done].
  apply bind_inv in H as [([] & t2 & _ & H)|(e & _ & ?)]; [|done].
  apply bind_inv in H as [([] & t3 & _ & H)|(e & _ & ?)]; [|done].
  apply bind_inv in H as [([] & t4 & _ & H)|(e & _ & ?)]; [|done].
  apply bind_inv in H as [([] & t5 & _ & H)|(e & _ & ?)]; [|done].
  unfold write_space_details in H.
  apply bind_inv in H as [([] & t6 & _ & H)|(e & _ & ?)]; [|done].
  unfold_monad.
  destruct (json_space W (room self) (room_creator self)) as [e|content];
    simpl in H; [done|].
  unfold write in H. unfold_monad. simplify_eq.
  exists content. split; [done|]. simpl. apply lookup_insert_eq.
Qed.

Lemma _archive_writes_space_details_witness :
  ∃ s',
    _archive quiet_world sample_self true false false 15 false false false ""
             prepared_state = (Ok tt, s')
    ∧ fs s' !! "Team_Sync_abc123/space_details.json" = Some (RegFile "{}").
Proof.
  destruct (_archive quiet_world sample_self true false false 15 false false
              false "" prepared_state) as [[[]|e] s'] eqn:E;
    [|by vm_compute in E].
  exists s'. split; [done|].
  destruct (_archive_writes_space_details _ _ _ _ _ _ _ _ _ _ _ _ E)
    as (content & Hjson & Hfile).
  simpl in Hjson. simplify_eq. exact Hfile.
Defined.


(** ** Avatars *)

Lemma resolve_person_avatars W da msg ls s ls1 s1 :
  resolve_person W da msg ls s = (Ok ls1, s1) →
  avatars_ok W da ls → avatars_ok W da ls1.
Proof.
  unfold resolve_person. intros H Hinv.
  destruct (people ls !! personEmail msg) as [p0|] eqn:Hp0.
  { unfold ret in H. by simplify_eq. }
  assert (Hold : ∀ p u f, avatars ls !! u = Some f →
            da = true ∧ u ≠ ""
            ∧ ∃ email q, <[personEmail msg := p]> (people ls) !! email = Some q
                         ∧ avatar_of q = Some u ∧ f = avatar_file W email).
  { intros p u f Hu. destruct (Hinv u f Hu) as (Hda & Hne & email & q & Hq & Ha & Hf).
    split_and!; [done | done |]. exists email, q. split_and!; [|done|done].
    rewrite lookup_insert_ne; [done|]. intros <-. by rewrite Hp0 in Hq. }
  assert (Hnew : ∀ p, avatars_ok W da
            {| people := <[personEmail msg := p]> (people ls);
               attachments := attachments ls;
               avatars :=
                 if da && truthy (avatar_of p)
                 then <[default "" (avatar_of p) :=
                          mk_File "" (PyStr "") "" (sanitize_name W (personEmail msg))
                                  false]> (avatars ls)
                 else avatars ls;
               processed_messages := processed_messages ls;
               repeat_indeces := repeat_indeces ls;
               previous_person_email := previous_person_email ls;
               previous_msg_datetime := previous_msg_datetime ls |}).
  { intros p u f. simpl. destruct (da && truthy (avatar_of p)) eqn:Hc.
    - apply andb_prop in Hc as [-> Htr].
      destruct (avatar_of p) as [a|] eqn:Ha; [|done]. simpl in *.
      destruct (decide (a = u)) as [->|Hau].
      + rewrite lookup_insert_eq. intros [= <-].
        split_and!; [done | |].
        * intros ->. by rewrite String.eqb_refl in Htr.
        * exists (personEmail msg), p. by rewrite lookup_insert_eq.
      + rewrite lookup_insert_ne by done. apply Hold.
    - apply Hold. }
  apply bind_inv in H as [(tr & t1 & _ & H)|(e & _ & ?)]; [|done].
  apply bind_inv in H as [([] & t2 & _ & H)|(e & _ & ?)]; [|done].
  apply bind_inv in H as [(p & t3 & _ & H)|(e & _ & ?)]; [|done].
  unfold ret in H. simplify_eq. apply Hnew.
Qed.

Lemma loop_body_avatars W da index msg ls s ls1 s1 :
  loop_body W da index msg ls s = (Ok ls1, s1) →
  avatars_ok W da ls → avatars_ok W da ls1.
Proof.
  unfold loop_body. intros H Hinv.
  apply bind_inv in H as [(l1 & t1 & H1 & H)|(e & _ & ?)]; [|done].
  apply bind_inv in H as [(att & t2 & _ & H)|(e & _ & ?)]; [|done].
  apply resolve_person_avatars in H1; [|exact Hinv].
  unfold ret in H. simplify_eq. exact H1.
Qed.

Lemma archive_loop_avatars W da msgs : ∀ index ls s ls' s',
  archive_loop W da index msgs ls s = (Ok ls', s') →
  avatars_ok W da ls → avatars_ok W da ls'.
Proof.
  induction msgs as [|msg rest IH]; intros index ls s ls' s' H Hinv; simpl in H.
  - unfold ret in H. by simplify_eq.
  - apply bind_inv in H as [(l1 & t1 & H1 & H)|(e & _ & ?)]; [|done].
    eapply IH; [exact H|]. by eapply loop_body_avatars.
Qed.

(** X14.  After the resolution pass every avatar scheduled for download is
    the non-empty avatar URL of a cached sender and is to be stored under
    that sender's sanitized email; without [download_avatars] none is
    scheduled. *)
Theorem archive_loop_schedules_avatars :
  ∀ W da msgs s ls s',
    archive_loop W da 0 msgs initial_loop_state s = (Ok ls, s') →
    (da = false → avatars ls = ∅)
    ∧ ∀ u f, avatars ls !! u = Some f →
        u ≠ ""
        ∧ ∃ msg p, msg ∈ msgs
            ∧ people ls !! personEmail msg = Some p
            ∧ avatar_of p = Some u
            ∧ f = avatar_file W (personEmail msg).
Proof.
  intros W da msgs s ls s' H.
  assert (Hinv : avatars_ok W da ls).
  { eapply archive_loop_avatars; [exact H|]. intros u f Hu.
    simpl in Hu. by rewrite lookup_empty in Hu. }
  split.
  - intros ->. apply map_empty. intros u.
    destruct (avatars ls !! u) as [f|] eqn:Hu; [|done].
    by destruct (Hinv u f Hu) as [? _].
  - intros u f Hu. destruct (Hinv u f Hu) as (_ & Hne & email & p & Hp & Ha & ->).
    split; [done|].
    pose proof (archive_loop_calls _ _ "" "" _ _ _ _ _ _ H) as (_ & _ & _ & Hok).
    destruct (Hok ls eq_refl) as (_ & Hppl & _).
    assert (Hin : email ∈ map personEmail msgs).
    { destruct (Hppl email) as [Hdom _]. destruct Hdom as [Hd|Hd]; [by rewrite Hp | | done].
      simpl in Hd. rewrite lookup_empty in Hd. by destruct Hd. }
    change (map personEmail msgs) with (personEmail <$> msgs) in Hin.
    apply list_elem_of_fmap in Hin as (msg & -> & Hmsg).
    by exists msg, p.
Qed.

Lemma archive_loop_schedules_avatars_witness :
  ∃ ls s',
    archive_loop portrait_world true 0 day_apart initial_loop_state empty_state
    = (Ok ls, s')
    ∧ avatars ls !! "https://avatars/p-a@x.com"
      = Some (avatar_file portrait_world "a@x.com").
Proof.
  destruct (archive_loop portrait_world true 0 day_apart initial_loop_state
              empty_state) as [[ls|e] s'] eqn:E; [|by vm_compute in E].
  exists ls, s'. split; [done|].
  destruct (avatars ls !! "https://avatars/p-a@x.com") as [f|] eqn:Hf.
  - destruct (archive_loop_schedules_avatars _ _ _ _ _ _ E) as [_ Hall].
    destruct (Hall _ _ Hf) as (_ & msg & p & Hin & _ & _ & ->).
    apply elem_of_cons in Hin as [-> | Hin]; [done|].
    apply elem_of_cons in Hin as [-> | Hin]; [done|].
    by apply elem_of_nil in Hin.
  - vm_compute in E. by simplify_eq.
Defined.

(** ** The 60-second rule on a well-ordered history *)

(** X15.  When the messages arrive newest first and consecutive messages
    lie less than a day apart, position [i] is flagged exactly when it is
    not the first, its sender is the sender before it, and the two messages
    lie less than 60 seconds apart. *)
Theorem repeat_indeces_newest_first :
  ∀ W da msgs s ls s',
    archive_loop W da 0 msgs initial_loop_state s = (Ok ls, s') →
    (∀ i prev cur, msgs !! i = Some prev → msgs !! S i = Some cur →
       (0 ≤ created prev - created cur < seconds_per_day * us_per_second)%Z) →
    ∀ i, i ∈ repeat_indeces ls ↔
      (0 < i)%nat ∧
      ∃ prev cur, msgs !! (i - 1)%nat = Some prev ∧ msgs !! i = Some cur
        ∧ personEmail cur = personEmail prev
        ∧ (gap_us (created prev) (created cur) < 60 * us_per_second)%Z.
Proof.
  intros W da msgs s ls s' H Hord i.
  rewrite (repeat_indeces_spec _ _ _ _ _ _ i H).
  split; intros (Hpos & prev & cur & Hprev & Hcur & He & Hgap);
    (split; [done|]); exists prev, cur; (split_and!; [done | done | done |]);
    assert (Hd : (0 ≤ created prev - created cur
                  < seconds_per_day * us_per_second)%Z)
      by (apply (Hord (i - 1)%nat); [done|];
          by replace (S (i - 1)) with i by lia);
    by apply (seconds_within_a_day _ _ Hd).
Qed.

Lemma repeat_indeces_newest_first_witness :
  ∃ ls s',
    archive_loop quiet_world true 0 three_messages initial_loop_state empty_state
    = (Ok ls, s')
    ∧ (1%nat ∈ repeat_indeces ls) ∧ ¬ (2%nat ∈ repeat_indeces ls).
Proof.
  destruct (archive_loop quiet_world true 0 three_messages initial_loop_state
              empty_state) as [[ls|e] s'] eqn:E; [|by vm_compute in E].
  exists ls, s'. split; [done|].
  assert (Hord : ∀ i prev cur, three_messages !! i = Some prev →
            three_messages !! S i = Some cur →
            (0 ≤ created prev - created cur < seconds_per_day * us_per_second)%Z).
  { intros [|[|[|i]]] prev cur Hp Hc; simpl in Hp, Hc; simplify_eq;
      by vm_compute. }
  pose proof (repeat_indeces_newest_first _ _ _ _ _ _ E Hord) as Hrule.
  split.
  - apply Hrule. split; [lia|]. eexists _, _. split_and!; try done.
  - intros H2. apply Hrule in H2 as (_ & prev & cur & Hp & Hc & He & _).
    simpl in Hp, Hc. by simplify_eq.
Defined.


(** ** A lookup that fails *)

(** X16.  When the lookup of a sender not yet cached fails with anything but
    the not-found answer, the resolution pass stops at once with that
    exception: one lookup is logged and nothing else happens. *)
Theorem archive_loop_lookup_failure :
  ∀ W da index msg rest ls s e,
    people ls !! personEmail msg = None →
    sdk_people_get W (trace s) (personId msg) = inl e →
    not_found e = false →
    archive_loop W da index (msg :: rest) ls s
    = (Raise e,
       {| fs := fs s;
          trace := EvPeopleGet (personEmail msg) (personId msg) :: trace s |}).
Proof.
  intros W da index msg rest ls s e Hnone Hget Hnf. simpl.
  apply bind_Raise. unfold loop_body. apply bind_Raise.
  unfold resolve_person. simpl. rewrite Hnone. unfold_monad. rewrite Hget.
  destruct e; simpl in *; try done. by rewrite Hnf.
Qed.

Lemma archive_loop_lookup_failure_witness :
  archive_loop no_directory_world true 0 three_messages initial_loop_state
               empty_state
  = (Raise (ApiError 500),
     {| fs := ∅; trace := [EvPeopleGet "a@x.com" "p-a@x.com"] |}).
Proof.
  by apply (archive_loop_lookup_failure no_directory_world true 0
              (message_at "a@x.com" 30 [])
              [message_at "a@x.com" 20 []; message_at "b@x.com" 10 []]
              initial_loop_state empty_state (ApiError 500)).
Defined.

(** ** Every download is requested once *)

Lemma gets_of_cons u ev tr :
  gets_of u (ev :: tr) = ((if is_get_of u ev then 1 else 0) + gets_of u tr)%nat.
Proof.
  unfold gets_of. rewrite filter_cons.
  destruct (is_get_of u ev); by case_decide.
Qed.

(** A download logs one [EvGet] whatever its outcome. *)
Lemma _download_file_trace W self folder url name s r s1 :
  _download_file W self folder url name s = (r, s1) →
  trace s1 = EvGet url :: trace s.
Proof.
  unfold _download_file, open_w, write. intros H. monad_cases; done.
Qed.

Lemma run_pool_gets W self folder links u : ∀ order failure s r s',
  run_pool W self folder links order failure s = (r, s') →
  gets_of u (trace s')
  = (gets_of u (trace s)
     + match links !! u with
       | Some _ => occurrences u order
       | None => 0
       end)%nat.
Proof.
  induction order as [|url rest IH]; intros failure s r s' H; simpl in H.
  - assert (s' = s) as -> by (destruct failure; unfold raise, ret in H; by simplify_eq).
    unfold occurrences. simpl. destruct (links !! u); lia.
  - rewrite occurrences_cons.
    destruct (links !! url) as [f|] eqn:Hl.
    + destruct (_download_file W self folder url (filename f) s)
        as [[[]|e'] s1] eqn:Hd;
        apply _download_file_trace in Hd; apply IH in H; rewrite H, Hd;
        rewrite gets_of_cons; simpl;
        destruct (String.eqb_spec url u) as [->|Hne];
        rewrite ?Hl; destruct (links !! u); lia.
    + apply IH in H. rewrite H.
      destruct (String.eqb_spec url u) as [->|Hne]; [by rewrite Hl|].
      destruct (links !! u); lia.
Qed.

Lemma occurrences_perm u l1 l2 : l1 ≡ₚ l2 → occurrences u l1 = occurrences u l2.
Proof. unfold occurrences. by intros ->. Qed.

Lemma occurrences_NoDup u l : NoDup l → u ∈ l → occurrences u l = 1%nat.
Proof.
  induction 1 as [|x l Hx Hnd IH]; intros Hin; [by apply elem_of_nil in Hin|].
  rewrite occurrences_cons. apply elem_of_cons in Hin as [-> | Hin].
  - rewrite String.eqb_refl.
    destruct (decide (0 < occurrences x l)%nat) as [Hpos|Hz]; [|lia].
    by apply occurrences_pos in Hpos.
  - destruct (String.eqb_spec x u) as [->|_]; [done|]. simpl. by apply IH.
Qed.

(** X17.  With a pool that runs every submitted task once, [_download_files]
    requests every URL of the map exactly once and no other URL, whether or
    not some download fails: nothing is retried and nothing is skipped after
    a failure. *)
Theorem _download_files_requests_each_once :
  ∀ W self folder links workers s r s' u,
    fair_pool W →
    (0 < workers)%Z →
    _download_files W self folder links workers s = (r, s') →
    gets_of u (trace s')
    = (gets_of u (trace s) + if links !! u is Some _ then 1 else 0)%nat.
Proof.
  intros W self folder links workers s r s' u Hfair Hw H.
  unfold _download_files in H.
  destruct (Z.leb_spec workers 0); [lia|].
  apply bind_inv in H as [(tr & t1 & Ht & H)|(e & He & ?)];
    [|by unfold get_trace in He].
  unfold get_trace in Ht. simplify_eq.
  apply (run_pool_gets _ _ _ _ u) in H. rewrite H. f_equal.
  destruct (links !! u) as [f|] eqn:Hu; [|done].
  rewrite (occurrences_perm _ _ _ (Hfair (trace t1) _)).
  apply occurrences_NoDup; [apply NoDup_fst_map_to_list|].
  change (map fst (map_to_list links)) with ((map_to_list links).*1).
  apply list_elem_of_fmap. exists (u, f). split; [done|].
  by apply elem_of_map_to_list.
Qed.

Lemma quiet_world_fair : fair_pool quiet_world.
Proof. intros tr urls. done. Qed.

Lemma offline_world_fair : fair_pool offline_world.
Proof. intros tr urls. done. Qed.

Lemma _download_files_requests_each_once_witness :
  ∃ s',
    _download_files offline_world sample_self "attachments" two_links 3
                    prepared_state
    = (Raise (RequestException "connection refused"), s')
    ∧ gets_of "https://files/1" (trace s') = 1%nat
    ∧ gets_of "https://files/2" (trace s') = 1%nat.
Proof.
  destruct (_download_files offline_world sample_self "attachments" two_links 3
              prepared_state) as [r s'] eqn:E.
  assert (Hw : (0 < 3)%Z) by lia.
  pose proof (_download_files_requests_each_once _ _ _ _ _ _ _ _
                "https://files/1" offline_world_fair Hw E) as H1.
  pose proof (_download_files_requests_each_once _ _ _ _ _ _ _ _
                "https://files/2" offline_world_fair Hw E) as H2.
  assert (Hr : r = Raise (RequestException "connection refused")).
  { clear H1 H2. vm_compute in E. congruence. }
  exists s'. split_and!.
  - by rewrite Hr.
  - etransitivity; [exact H1|]. by vm_compute.
  - etransitivity; [exact H2|]. by vm_compute.
Defined.

(** X18.  With nothing to download, [_download_files] makes no request and
    changes nothing. *)
Theorem _download_files_nothing_to_do :
  ∀ W self folder workers s,
    fair_pool W →
    (0 < workers)%Z →
    _download_files W self folder ∅ workers s = (Ok tt, s).
Proof.
  intros W self folder workers s Hfair Hw. unfold _download_files.
  destruct (Z.leb_spec workers 0); [lia|].
  unfold bind, get_trace. rewrite map_to_list_empty. simpl.
  pose proof (Hfair (trace s) []) as Hp. apply Permutation_nil_r in Hp.
  by rewrite Hp.
Qed.

Lemma _download_files_nothing_to_do_witness :
  _download_files quiet_world sample_self "avatars" ∅ 15 empty_state
  = (Ok tt, empty_state).
Proof.
  apply (_download_files_nothing_to_do quiet_world sample_self "avatars" 15
           empty_state quiet_world_fair). lia.
Defined.

(** ** A download without a file name *)

Lemma ends_with_slash_app d : ends_with_slash (d +:+ "/") = true.
Proof.
  induction d as [|c d IH]; [done|].
  change (ends_with_slash (String c (d +:+ "/")) = true).
  cbn [ends_with_slash]. destruct (d +:+ "/") eqn:E; [|done].
  by destruct d.
Qed.

Lemma last_char_slash d :
  d ≠ "" →
  String.eqb (String.substring (String.length d - 1) 1 d) "/"
  = ends_with_slash d.
Proof.
  induction d as [|c d IH]; [done|]. intros _.
  destruct d as [|c' d].
  - simpl. by destruct (Ascii.eqb c "/").
  - replace (String.length (String c (String c' d)) - 1)%nat
      with (S (String.length (String c' d) - 1)) by (simpl; lia).
    assert (Hs : ∀ n s, String.substring (S n) 1 (String c s)
                        = String.substring n 1 s) by done.
    rewrite Hs, IH by done. reflexivity.
Qed.

Lemma path_join_nonempty a b : a ≠ "" → path_join a b ≠ "".
Proof.
  intros Ha. unfold path_join.
  destruct (String.prefix "/" b) eqn:Hb; [by destruct b|].
  destruct (String.eqb_spec a ""); [done|].
  destruct a as [|c a]; [done|]. by case_match.
Qed.

Lemma path_join_empty_name d : d ≠ "" → ends_with_slash (path_join d "") = true.
Proof.
  intros Hd. unfold path_join. simpl.
  destruct (String.eqb_spec d ""); [done|].
  rewrite (last_char_slash d Hd).
  destruct (ends_with_slash d) eqn:He.
  - by rewrite string_app_empty_r.
  - apply ends_with_slash_app.
Qed.

(** [open] never opens a name that ends with a slash. *)
Lemma open_w_directory_name p s :
  ends_with_slash p = true → ∃ e, open_w p s = (Raise e, s).
Proof.
  intros Hp. unfold open_w. unfold_monad. rewrite Hp.
  destruct (String.eqb p ""); [by eexists|].
  repeat case_match; by eexists.
Qed.

(** X19.  A download under the empty file name never succeeds: the body is
    requested, and then either the request has failed or [open] refuses the
    name of the directory; nothing is written. *)
Theorem _download_file_empty_name :
  ∀ W self folder url s,
    archive_folder_name self ≠ "" →
    ∃ e,
      _download_file W self folder url "" s
      = (Raise e, {| fs := fs s; trace := EvGet url :: trace s |}).
Proof.
  intros W self folder url s Hname. unfold _download_file.
  rewrite (bind_Ok _ _ _ (trace s) s) by done.
  rewrite (bind_Ok _ _ _ tt {| fs := fs s; trace := EvGet url :: trace s |})
    by done.
  destruct (requests_get W (trace s) url) as [e|r].
  { exists e. by apply bind_Raise. }
  rewrite (bind_Ok _ _ _ r _) by done.
  destruct (open_w_directory_name
              (path_join (path_join (archive_folder_name self) folder) "")
              {| fs := fs s; trace := EvGet url :: trace s |}) as [e He].
  { apply path_join_empty_name. by apply path_join_nonempty. }
  exists e. by apply bind_Raise.
Qed.

Lemma _download_file_empty_name_witness :
  _download_file quiet_world sample_self "attachments" "https://files/1" ""
                 prepared_state
  = (Raise (IsADirectoryError "Team_Sync_abc123/attachments/"),
     {| fs := fs prepared_state; trace := [EvGet "https://files/1"] |}).
Proof.
  destruct (_download_file_empty_name quiet_world sample_self "attachments"
              "https://files/1" prepared_state) as [e He]; [done|].
  rewrite He. pose proof He as He'. vm_compute in He'. by injection He' as <-.
Defined.

(** ** The listing *)

Lemma probe_files_fs W urls : ∀ att s r s1,
  probe_files W urls att s = (r, s1) → fs s1 = fs s.
Proof.
  induction urls as [|url rest IH]; intros att s r s1 H; simpl in H.
  - unfold ret in H. by simplify_eq.
  - apply bind_inv in H as [(f & t1 & H1 & H)|(x & H1 & ->)].
    + apply file_details_fs in H1. apply IH in H. congruence.
    + by apply file_details_fs in H1.
Qed.

Lemma resolve_person_fs W da msg ls s r s1 :
  resolve_person W da msg ls s = (r, s1) → fs s1 = fs s.
Proof. unfold resolve_person. intros H. monad_cases; done. Qed.

Lemma archive_loop_fs W da msgs : ∀ index ls s r s',
  archive_loop W da index msgs ls s = (r, s') → fs s' = fs s.
Proof.
  induction msgs as [|msg rest IH]; intros index ls s r s' H; simpl in H.
  - unfold ret in H. by simplify_eq.
  - assert (Hbody : ∀ r1 s1, loop_body W da index msg ls s = (r1, s1) →
                             fs s1 = fs s).
    { intros r1 s1 Hb. unfold loop_body in Hb.
      apply bind_inv in Hb as [(l1 & t1 & H1 & Hb)|(x & H1 & ->)];
        [|by apply resolve_person_fs in H1].
      apply resolve_person_fs in H1.
      apply bind_inv in Hb as [(att & t2 & H2 & Hb)|(x & H2 & ->)];
        apply probe_files_fs in H2; [|congruence].
      unfold ret in Hb. simplify_eq. congruence. }
    apply bind_inv in H as [(l1 & t1 & H1 & H)|(x & H1 & ->)].
    + apply Hbody in H1. apply IH in H. congruence.
    + by apply Hbody in H1.
Qed.

(** X20.  When the listing fails, [_archive] fails before it writes anything:
    the messages yielded before the failure go through the resolution pass,
    then the listing's exception is raised (or the exception of the pass, if
    that fails first), and the file system is as before. *)
Theorem _archive_listing_failure :
  ∀ W self ro da dv workers tf hf jf fmt s msgs e,
    sdk_messages_list W (trace s) (list_room_id (messages self))
                      (list_mentioned_me (messages self))
    = (msgs, Some e) →
    let s0 := {| fs := fs s;
                 trace := EvMessagesList (list_room_id (messages self))
                                         (list_mentioned_me (messages self))
                          :: trace s |} in
    ∃ x s',
      _archive W self ro da dv workers tf hf jf fmt s = (Raise x, s')
      ∧ fs s' = fs s
      ∧ s' = (archive_loop W dv 0 msgs initial_loop_state s0).2
      ∧ (∀ ls, (archive_loop W dv 0 msgs initial_loop_state s0).1 = Ok ls →
               x = e).
Proof.
  intros W self ro da dv workers tf hf jf fmt s msgs e Hlist s0.
  unfold _archive, iterate.
  rewrite (bind_Ok _ _ _ (sdk_messages_list W (trace s)
             (list_room_id (messages self))
             (list_mentioned_me (messages self))) s0) by done.
  rewrite Hlist. cbn [fst snd].
  destruct (archive_loop W dv 0 msgs initial_loop_state s0) as [[ls|x] s1] eqn:E.
  - exists e, s1. rewrite (bind_Ok _ _ _ _ _ E).
    split_and!; [done | by apply archive_loop_fs in E | done |].
    by intros ls' _.
  - exists x, s1. rewrite (bind_Raise _ _ _ _ _ E).
    split_and!; [done | by apply archive_loop_fs in E | done | done].
Qed.

Lemma _archive_listing_failure_witness :
  _archive failing_listing_world sample_self true true true 15 true true true ""
           prepared_state
  = (Raise (ApiError 502),
     {| fs := fs prepared_state;
        trace := [EvPeopleGet "a@x.com" "p-a@x.com";
                  EvMessagesList "abc123" false] |}).
Proof.
  destruct (_archive_listing_failure failing_listing_world sample_self true true
              true 15 true true true "" prepared_state
              [message_at "a@x.com" 30 []] (ApiError 502) eq_refl)
    as (x & s' & Hrun & Hfs & Hs & Hx).
  rewrite Hrun. assert (x = ApiError 502) as ->.
  { eapply Hx. vm_compute. reflexivity. }
  rewrite Hs. by vm_compute.
Defined.
